(** * Sales & Inventory dashboard: the data-access layer of [database.py]

    A shallow embedding of the SQLite-backed repository functions of
    [src/database.py] and the properties the specification states about
    them.

    Modelling conventions.
    - The SQLite file is a value of type [database]: the two tables as lists
      of rows in rowid order, together with the two AUTOINCREMENT counters
      that SQLite keeps in [sqlite_sequence].  Every Python function opens a
      connection, runs its statements, commits and closes; it is embedded as a
      function from the database before the call to the returned value and
      the database after the call.
    - INTEGER columns and Python [int]s are [Z].  SQLite stores signed
      64-bit integers, and the integers that callers pass and that the
      tables hold are taken to be in that range.  A value that a function
      computes and binds to a statement can leave it; the bind then raises
      [OverflowError].  The functions named as in the source give the value
      returned and the database left when every bind succeeds; for the
      functions that bind a computed value, a second definition, with the
      suffix [_call], adds the exception.
    - REAL columns and Python [float]s are IEEE-754 binary64 numbers, taken
      from the standard library's [SpecFloat] with [prec = 53] and
      [emax = 1024].
    - TIMESTAMP values are readings of a wall clock, counted in microseconds
      ([datetime] resolution) from 0001-01-01 00:00:00, the least [datetime];
      [timedelta] arithmetic is integer arithmetic on them and the
      comparison of stored timestamps is the comparison of these numbers.
    - The clock ([datetime.now()], [CURRENT_TIMESTAMP]) and the random source
      ([random.randint], [random.choice]) are explicit inputs. *)

From Stdlib Require Import ZArith List String Bool Lia Sorted Permutation.
From Stdlib Require Import Floats.SpecFloat.
Import ListNotations.
Open Scope Z_scope.

(** ** Binary64 values *)

Module Real.

Definition prec : Z := 53.
Definition emax : Z := 1024.

Definition real : Type := spec_float.

(** Conversion of an integer to binary64, as done by Python's
    [int.__float__] and by SQLite's REAL column affinity. *)
Definition of_Z (n : Z) : real := binary_normalize prec emax n 0 false.

Definition mul (x y : real) : real := SFmul prec emax x y.
Definition sub (x y : real) : real := SFsub prec emax x y.
Definition div (x y : real) : real := SFdiv prec emax x y.
Definition ltb (x y : real) : bool := SFltb x y.

Definition zero : real := S754_zero false.





End Real.

Abbreviation real := Real.real.

(** ** Time *)

Definition timestamp : Type := Z.

Definition us_per_minute : Z := 60000000.
Definition us_per_hour : Z := 3600000000.
Definition us_per_day : Z := 86400000000.

(** [timedelta(days=d, hours=h, minutes=m)] *)
Definition timedelta (days hours minutes : Z) : Z :=
  days * us_per_day + hours * us_per_hour + minutes * us_per_minute.

(** ** Rows and tables *)

Record product : Type := mkProduct {
  p_id : Z;
  p_name : string;
  p_category : string;
  p_price : real;
  p_cost : real;
  p_stock : Z;
  p_created_at : timestamp
}.

Record transaction : Type := mkTransaction {
  t_id : Z;
  t_product_id : Z;
  t_quantity : Z;
  t_total_price : real;
  t_profit : real;
  t_transaction_date : timestamp
}.

Record database : Type := mkDatabase {
  products : list product;
  transactions : list transaction;
  products_seq : Z;
  transactions_seq : Z
}.

(** A database file in which [create_tables] has not run yet has no tables. *)
Definition store : Type := option database.

Definition empty_database : database :=
  {| products := []; transactions := []; products_seq := 0; transactions_seq := 0 |}.

(** [CREATE TABLE IF NOT EXISTS] for both tables. *)
Definition create_tables (s : store) : database :=
  match s with
  | None => empty_database
  | Some d => d
  end.

(** The rowid an AUTOINCREMENT table gives to a new row: one more than the
    largest rowid the table ever held. *)
Definition max_rowid {A : Type} (rowid : A -> Z) (rows : list A) : Z :=
  fold_right (fun r acc => Z.max (rowid r) acc) 0 rows.

Definition next_rowid {A : Type} (rowid : A -> Z) (rows : list A) (seq : Z) : Z :=
  Z.max seq (max_rowid rowid rows) + 1.

Definition with_products (d : database) (ps : list product) : database :=
  {| products := ps; transactions := transactions d;
     products_seq := products_seq d; transactions_seq := transactions_seq d |}.

Definition with_stock (p : product) (new_stock : Z) : product :=
  {| p_id := p_id p; p_name := p_name p; p_category := p_category p;
     p_price := p_price p; p_cost := p_cost p; p_stock := new_stock;
     p_created_at := p_created_at p |}.

(** ** CRUD operations on products *)

(** [INSERT INTO products (name, category, price, cost, stock)]; [created_at]
    takes the default [CURRENT_TIMESTAMP], here the argument
    [current_timestamp]. *)
Definition add_product (d : database) (current_timestamp : timestamp)
    (name category : string) (price cost : real) (stock : Z) : Z * database :=
  let product_id := next_rowid p_id (products d) (products_seq d) in
  (product_id,
   {| products := products d ++
        [ {| p_id := product_id; p_name := name; p_category := category;
             p_price := price; p_cost := cost; p_stock := stock;
             p_created_at := current_timestamp |} ];
      transactions := transactions d;
      products_seq := product_id;
      transactions_seq := transactions_seq d |}).

(** [SELECT * FROM products ORDER BY id]: rows are kept in rowid order. *)
Definition get_products (d : database) : list product := products d.

(** [SELECT * FROM products WHERE id = ?] followed by [fetchone]. *)
Definition get_product_by_id (d : database) (product_id : Z) : option product :=
  find (fun p => p_id p =? product_id) (products d).

(** [UPDATE products SET stock = ? WHERE id = ?] *)
Definition set_stock (new_stock product_id : Z) (ps : list product) : list product :=
  map (fun p => if p_id p =? product_id then with_stock p new_stock else p) ps.

Definition update_stock (d : database) (product_id quantity_sold : Z)
    : bool * database :=
  match option_map p_stock (get_product_by_id d product_id) with
  | None => (false, d)
  | Some current_stock =>
      if current_stock <? quantity_sold then (false, d)
      else
        let new_stock := current_stock - quantity_sold in
        (true, with_products d (set_stock new_stock product_id (products d)))
  end.

Definition restock_product (d : database) (product_id quantity_to_add : Z)
    : bool * database :=
  match option_map p_stock (get_product_by_id d product_id) with
  | None => (false, d)
  | Some current_stock =>
      let new_stock := current_stock + quantity_to_add in
      (true, with_products d (set_stock new_stock product_id (products d)))
  end.

(** *** The same two calls with the exception they can raise *)

(** The integers that the [sqlite3] module binds to a statement. *)
Definition int64 (n : Z) : bool := (- 2 ^ 63 <=? n) && (n <=? 2 ^ 63 - 1).

(** What a call does: it returns a value and leaves a database, or it raises
    [OverflowError], and then it has written nothing. *)
Inductive outcome (A : Type) : Type :=
  | Returns (value : A) (d : database)
  | Raises_OverflowError (d : database).

Arguments Returns {A} value d.
Arguments Raises_OverflowError {A} d.

Definition database_after {A : Type} (o : outcome A) : database :=
  match o with
  | Returns _ d => d
  | Raises_OverflowError d => d
  end.

(** [update_stock]: the [UPDATE] binds [new_stock]. *)
Definition update_stock_call (d : database) (product_id quantity_sold : Z)
    : outcome bool :=
  match option_map p_stock (get_product_by_id d product_id) with
  | None => Returns false d
  | Some current_stock =>
      if current_stock <? quantity_sold then Returns false d
      else
        let new_stock := current_stock - quantity_sold in
        if int64 new_stock then
          Returns true
            (with_products d (set_stock new_stock product_id (products d)))
        else Raises_OverflowError d
  end.

(** [restock_product]: the [UPDATE] binds [new_stock]. *)
Definition restock_product_call (d : database)
    (product_id quantity_to_add : Z) : outcome bool :=
  match option_map p_stock (get_product_by_id d product_id) with
  | None => Returns false d
  | Some current_stock =>
      let new_stock := current_stock + quantity_to_add in
      if int64 new_stock then
        Returns true
          (with_products d (set_stock new_stock product_id (products d)))
      else Raises_OverflowError d
  end.

(** [x if x is not None else y] *)
Definition or_else {A : Type} (x : option A) (y : A) : A :=
  match x with
  | Some v => v
  | None => y
  end.

Definition update_product (d : database) (product_id : Z)
    (name category : option string) (price cost : option real)
    (stock : option Z) : bool * database :=
  match get_product_by_id d product_id with
  | None => (false, d)
  | Some product =>
      let new_name := or_else name (p_name product) in
      let new_category := or_else category (p_category product) in
      let new_price := or_else price (p_price product) in
      let new_cost := or_else cost (p_cost product) in
      let new_stock := or_else stock (p_stock product) in
      (true,
       with_products d
         (map (fun p =>
                 if p_id p =? product_id then
                   {| p_id := p_id p; p_name := new_name;
                      p_category := new_category; p_price := new_price;
                      p_cost := new_cost; p_stock := new_stock;
                      p_created_at := p_created_at p |}
                 else p)
              (products d)))
  end.

Definition delete_product (d : database) (product_id : Z) : bool * database :=
  match get_product_by_id d product_id with
  | None => (false, d)
  | Some _ =>
      (true,
       {| products := filter (fun p => negb (p_id p =? product_id)) (products d);
          transactions :=
            filter (fun t => negb (t_product_id t =? product_id)) (transactions d);
          products_seq := products_seq d;
          transactions_seq := transactions_seq d |})
  end.

(** ** CRUD operations on transactions *)

(** [INSERT INTO transactions (product_id, quantity, total_price, profit)];
    [transaction_date] takes the default [CURRENT_TIMESTAMP], here the
    argument [current_timestamp].  No statement looks the product up. *)
Definition add_transaction (d : database) (current_timestamp : timestamp)
    (product_id quantity : Z) (total_price profit : real) : Z * database :=
  let transaction_id := next_rowid t_id (transactions d) (transactions_seq d) in
  (transaction_id,
   {| products := products d;
      transactions := transactions d ++
        [ {| t_id := transaction_id; t_product_id := product_id;
             t_quantity := quantity; t_total_price := total_price;
             t_profit := profit; t_transaction_date := current_timestamp |} ];
      products_seq := products_seq d;
      transactions_seq := transaction_id |}).

Definition add_transaction_with_date (d : database)
    (product_id quantity : Z) (total_price profit : real)
    (transaction_date : timestamp) : database :=
  snd (add_transaction d transaction_date product_id quantity total_price profit).

(** [ORDER BY key DESC] as a stable insertion sort; the properties below do
    not depend on how rows with equal keys are arranged. *)
Section OrderBy.
Context {A K : Type} (ltb : K -> K -> bool) (key : A -> K).

Fixpoint insert_desc (x : A) (l : list A) : list A :=
  match l with
  | [] => [x]
  | y :: l' =>
      if ltb (key x) (key y) then y :: insert_desc x l' else x :: y :: l'
  end.

Definition order_by_desc (l : list A) : list A := fold_right insert_desc [] l.
End OrderBy.

(** A row of the result of [get_transactions]. *)
Record transaction_row : Type := mkTransactionRow {
  r_id : Z;
  r_product_id : Z;
  r_product_name : string;
  r_quantity : Z;
  r_total_price : real;
  r_profit : real;
  r_transaction_date : timestamp
}.

(** The row that the join builds from transaction [t] and product [p]. *)
Definition joined_row (t : transaction) (p : product) : transaction_row :=
  {| r_id := t_id t; r_product_id := t_product_id t;
     r_product_name := p_name p; r_quantity := t_quantity t;
     r_total_price := t_total_price t; r_profit := t_profit t;
     r_transaction_date := t_transaction_date t |}.

(** [FROM transactions t JOIN products p ON t.product_id = p.id] *)
Definition join_products (ps : list product) (t : transaction)
    : list transaction_row :=
  map (joined_row t) (filter (fun p => t_product_id t =? p_id p) ps).

Definition get_transactions (d : database) (now : timestamp) (days : Z)
    : list transaction_row :=
  let start_date := now - timedelta days 0 0 in
  order_by_desc Z.ltb r_transaction_date
    (filter (fun r => start_date <=? r_transaction_date r)
       (flat_map (join_products (products d)) (transactions d))).

(** [get_transactions] with the [OverflowError] of the [datetime] module:
    [timedelta(days=days)] takes at most 999999999 days, and
    [datetime.now() - timedelta(...)] has to be a [datetime], of the years 1
    to 9999. *)
Definition timedelta_max_days : Z := 999999999.

Definition datetime_max : timestamp := 3652059 * us_per_day - 1.

Definition is_datetime (t : timestamp) : bool :=
  (0 <=? t) && (t <=? datetime_max).

Definition get_transactions_call (d : database) (now : timestamp) (days : Z)
    : option (list transaction_row) :=
  if (Z.abs days <=? timedelta_max_days)
     && is_datetime (now - timedelta days 0 0)
  then Some (get_transactions d now days)
  else None.

(** ** Derived metrics: the stock prediction *)

Module Pandas.

(** The literal [1.2]: the binary64 number nearest to 6/5. *)
Definition float_1_2 : real := S754_finite false 5404319552844595 (-52).

(** The integer nearest to [m / d], ties going to the even one. *)
Definition div_half_even (m d : Z) : Z :=
  let q := m / d in
  let r := m mod d in
  if 2 * r <? d then q
  else if d <? 2 * r then q + 1
  else if Z.even q then q else q + 1.

(** [Series.round(0)] on a float64 column: numpy's [rint], which rounds to
    the nearest integral value, ties to even, and keeps zeros, infinities
    and NaN. *)
Definition round0 (x : real) : real :=
  match x with
  | S754_finite s m e =>
      if 0 <=? e then x
      else binary_normalize Real.prec Real.emax
             (cond_Zopp s (div_half_even (Zpos m) (2 ^ (- e)))) 0 s
  | _ => x
  end.

(** [Series.astype(int)] on a float64 column: the C conversion to a 64-bit
    integer, which drops the fractional part.  NaN and the infinities have
    no integer value; the conversion yields the smallest 64-bit integer for
    them on x86-64. *)
Definition astype_int (x : real) : Z :=
  match x with
  | S754_zero _ => 0
  | S754_finite s m e =>
      cond_Zopp s (if 0 <=? e then Zpos m * 2 ^ e else Zpos m / 2 ^ (- e))
  | _ => - 2 ^ 63
  end.

End Pandas.

(** A row of the data frame returned by [get_sales_prediction]. *)
Record prediction_row : Type := mkPredictionRow {
  product_id : Z;
  product_name : string;
  current_stock : Z;
  total_sold_3days : Z;
  avg_daily_sales : real;
  predicted_demand : Z;
  stock_status : string
}.

Definition perlu_restock : string := "⚠️ Perlu Restock".
Definition aman : string := "✅ Aman".

(** [SUM(t.quantity)] over the joined rows of one product. *)
Definition sum_quantity (ts : list transaction) : Z :=
  fold_right (fun t acc => t_quantity t + acc) 0 ts.

(** [COALESCE(AVG(t.quantity), 0)]: SQLite divides the sum, converted to
    binary64, by the row count; with no row the aggregate is NULL and the
    result is the integer 0. *)
Definition avg_quantity (ts : list transaction) : real :=
  match ts with
  | [] => Real.zero
  | _ :: _ =>
      Real.div (Real.of_Z (sum_quantity ts)) (Real.of_Z (Z.of_nat (List.length ts)))
  end.

(** The transactions the LEFT JOIN pairs with product [p]:
    [p.id = t.product_id AND t.transaction_date >= ?]. *)
Definition joined_transactions (d : database) (start_date : timestamp)
    (p : product) : list transaction :=
  filter (fun t => (p_id p =? t_product_id t)
                   && (start_date <=? t_transaction_date t))
         (transactions d).

(** One row of the SQL query, before the two pandas columns are added.
    [GROUP BY p.id, p.name, p.stock] makes one group per product row, [id]
    being the primary key. *)
Definition prediction_query_row (d : database) (start_date : timestamp)
    (p : product) : prediction_row :=
  let ts := joined_transactions d start_date p in
  {| product_id := p_id p; product_name := p_name p;
     current_stock := p_stock p;
     total_sold_3days := sum_quantity ts;
     avg_daily_sales := avg_quantity ts;
     predicted_demand := 0; stock_status := EmptyString |}.

(** [df["predicted_demand"] = (df["avg_daily_sales"] * 1.2).round(0).astype(int)]
    and [df["stock_status"] = df.apply(...)]. *)
Definition add_prediction_columns (r : prediction_row) : prediction_row :=
  let demand :=
    Pandas.astype_int
      (Pandas.round0 (Real.mul (avg_daily_sales r) Pandas.float_1_2)) in
  {| product_id := product_id r; product_name := product_name r;
     current_stock := current_stock r;
     total_sold_3days := total_sold_3days r;
     avg_daily_sales := avg_daily_sales r;
     predicted_demand := demand;
     stock_status :=
       if current_stock r <? demand * 2 then perlu_restock else aman |}.

Definition get_sales_prediction (d : database) (now : timestamp)
    : list prediction_row :=
  let start_date := now - timedelta 3 0 0 in
  map add_prediction_columns
    (order_by_desc Real.ltb avg_daily_sales
       (map (prediction_query_row d start_date) (products d))).

(** ** Bootstrap: the demo data *)

Definition is_database_empty (d : database) : bool :=
  Z.of_nat (List.length (products d)) =? 0.

(** What the seeding reads from outside the database: the random source, as
    the sequence of raw numbers it delivers, and the two clocks, as the
    sequences of their successive readings. *)
Record environment : Type := mkEnvironment {
  random_raw : nat -> Z;
  datetime_now : nat -> timestamp;
  current_timestamp : nat -> timestamp
}.

(** [random.randint(a, b)]: some integer of [a..b], fixed by the next raw
    number. *)
Definition randint (raw a b : Z) : Z := a + raw mod (b - a + 1).

(** [random.choice(seq)] on a list of integers. *)
Definition choice (raw : Z) (seq : list Z) : Z :=
  nth (Z.to_nat (raw mod Z.of_nat (List.length seq))) seq 0.

(** (name, category, price, cost, stock) *)
Definition products_data : list (string * string * Z * Z * Z) :=
  [ ("Laptop Asus ROG", "Elektronik", 15000000, 13000000, 15);
    ("iPhone 15 Pro", "Elektronik", 20000000, 17500000, 10);
    ("Mouse Logitech G502", "Aksesoris", 850000, 650000, 50);
    ("Keyboard Mechanical RGB", "Aksesoris", 750000, 500000, 40);
    ("Monitor Samsung 27 inch", "Elektronik", 3500000, 2800000, 20);
    ("Headphone Sony WH-1000XM5", "Aksesoris", 4500000, 3500000, 25);
    ("SSD Samsung 1TB", "Komponen", 1500000, 1100000, 35);
    ("RAM DDR5 32GB", "Komponen", 2000000, 1500000, 30);
    ("Webcam Logitech C920", "Aksesoris", 1200000, 900000, 45);
    ("Printer Epson L3250", "Elektronik", 3200000, 2600000, 15) ]%string.

(** The state the seeding loops thread: the database, how many raw numbers
    and clock readings have been consumed, and [transaction_count]. *)
Record seeding : Type := mkSeeding {
  s_database : database;
  s_draws : nat;
  s_ticks : nat;
  transaction_count : Z
}.

(** The first loop: [add_product] for every entry of [products_data],
    collecting the ids. *)
Fixpoint insert_products (e : environment)
    (data : list (string * string * Z * Z * Z)) (d : database) (ticks : nat)
    : list Z * database * nat :=
  match data with
  | [] => ([], d, ticks)
  | (name, category, price, cost, stock) :: data' =>
      let '(pid, d1) :=
        add_product d (current_timestamp e ticks) name category
          (Real.of_Z price) (Real.of_Z cost) stock in
      let '(product_ids, d2, ticks2) := insert_products e data' d1 (S ticks) in
      (pid :: product_ids, d2, ticks2)
  end.

(** The body of the inner loop.  The boolean tells whether the [if] branch
    was taken, that is, whether a transaction was written. *)
Definition seed_transaction (e : environment) (day_offset : Z)
    (product_ids : list Z) (s : seeding) : bool * seeding :=
  let n := s_draws s in
  let pid := choice (random_raw e n) product_ids in
  match get_product_by_id (s_database s) pid with
  | None =>
      (false, {| s_database := s_database s; s_draws := S n;
                 s_ticks := s_ticks s;
                 transaction_count := transaction_count s |})
  | Some product =>
      if 0 <? p_stock product then
        let quantity :=
          randint (random_raw e (S n)) 1 (Z.min 3 (p_stock product)) in
        let total_price := Real.mul (p_price product) (Real.of_Z quantity) in
        let profit :=
          Real.mul (Real.sub (p_price product) (p_cost product))
                   (Real.of_Z quantity) in
        let transaction_date :=
          datetime_now e (s_ticks s)
          - timedelta day_offset
              (randint (random_raw e (S (S n))) 8 20)
              (randint (random_raw e (S (S (S n)))) 0 59) in
        let d1 :=
          add_transaction_with_date (s_database s) pid quantity total_price
            profit transaction_date in
        let d2 := snd (update_stock d1 pid quantity) in
        (true, {| s_database := d2; s_draws := S (S (S (S n)));
                  s_ticks := S (s_ticks s);
                  transaction_count := transaction_count s + 1 |})
      else
        (false, {| s_database := s_database s; s_draws := S n;
                   s_ticks := s_ticks s;
                   transaction_count := transaction_count s |})
  end.

(** [for _ in range(daily_transactions)], left early by the [break] once
    fifty transactions exist. *)
Fixpoint seed_day (e : environment) (day_offset : Z) (product_ids : list Z)
    (iterations : nat) (s : seeding) : seeding :=
  match iterations with
  | O => s
  | S iterations' =>
      let '(written, s1) := seed_transaction e day_offset product_ids s in
      if written && (50 <=? transaction_count s1) then s1
      else seed_day e day_offset product_ids iterations' s1
  end.

(** [for day_offset in range(7, -1, -1)] *)
Fixpoint seed_days (e : environment) (day_offsets : list Z)
    (product_ids : list Z) (s : seeding) : seeding :=
  match day_offsets with
  | [] => s
  | day_offset :: rest =>
      let daily_transactions := randint (random_raw e (s_draws s)) 5 10 in
      let s0 :=
        {| s_database := s_database s; s_draws := S (s_draws s);
           s_ticks := s_ticks s; transaction_count := transaction_count s |} in
      let s1 :=
        seed_day e day_offset product_ids (Z.to_nat daily_transactions) s0 in
      if 50 <=? transaction_count s1 then s1
      else seed_days e rest product_ids s1
  end.

Definition generate_dummy_data (e : environment) (d : database) : seeding :=
  let '(product_ids, d1, ticks) := insert_products e products_data d 0%nat in
  seed_days e [7; 6; 5; 4; 3; 2; 1; 0] product_ids
    {| s_database := d1; s_draws := 0%nat; s_ticks := ticks;
       transaction_count := 0 |}.

Definition initialize_database (e : environment) (s : store)
    : bool * database :=
  let d := create_tables s in
  if is_database_empty d then (true, s_database (generate_dummy_data e d))
  else (false, d).

(** The calendar date of a timestamp, as a day number. *)
Definition calendar_day (t : timestamp) : Z := t / us_per_day.


(** ** Sequences of calls *)

(** The calls a client of the module can make that write to the database. *)
Inductive operation : Type :=
  | Add_product (current_timestamp : timestamp) (name category : string)
      (price cost : real) (stock : Z)
  | Update_stock (product_id quantity_sold : Z)
  | Restock_product (product_id quantity_to_add : Z)
  | Update_product (product_id : Z) (name category : option string)
      (price cost : option real) (stock : option Z)
  | Delete_product (product_id : Z)
  | Add_transaction (current_timestamp : timestamp) (product_id quantity : Z)
      (total_price profit : real)
  | Add_transaction_with_date (product_id quantity : Z)
      (total_price profit : real) (transaction_date : timestamp)
  | Generate_dummy_data (e : environment)
  | Initialize_database (e : environment).

Definition perform (d : database) (o : operation) : database :=
  match o with
  | Add_product ts name category price cost stock =>
      snd (add_product d ts name category price cost stock)
  | Update_stock product_id quantity_sold =>
      snd (update_stock d product_id quantity_sold)
  | Restock_product product_id quantity_to_add =>
      snd (restock_product d product_id quantity_to_add)
  | Update_product product_id name category price cost stock =>
      snd (update_product d product_id name category price cost stock)
  | Delete_product product_id => snd (delete_product d product_id)
  | Add_transaction ts product_id quantity total_price profit =>
      snd (add_transaction d ts product_id quantity total_price profit)
  | Add_transaction_with_date product_id quantity total_price profit date =>
      add_transaction_with_date d product_id quantity total_price profit date
  | Generate_dummy_data e => s_database (generate_dummy_data e d)
  | Initialize_database e => snd (initialize_database e (Some d))
  end.

Definition perform_all (d : database) (os : list operation) : database :=
  fold_left perform os d.

(** What AUTOINCREMENT maintains: the counter of [products] is at least every
    id in the table. *)
Definition products_seq_ok (d : database) : Prop :=
  forall p, In p (products d) -> p_id p <= products_seq d.

(** ** Sample data for the examples *)

Definition sample_product : product :=
  {| p_id := 1; p_name := "Mouse Logitech G502"; p_category := "Aksesoris";
     p_price := Real.of_Z 850000; p_cost := Real.of_Z 650000; p_stock := 5;
     p_created_at := 0 |}.

Definition sample_database : database :=
  {| products := [sample_product]; transactions := [];
     products_seq := 1; transactions_seq := 0 |}.

(** The columns of a [get_transactions] row that come from the transaction
    itself; the remaining one, [product_name], comes from the product. *)
Definition snapshot (r : transaction_row) : Z * Z * Z * real * real * timestamp :=
  (r_id r, r_product_id r, r_quantity r, r_total_price r, r_profit r,
   r_transaction_date r).

(** The same columns as the transactions table stores them. *)
Definition stored_snapshot (t : transaction)
    : Z * Z * Z * real * real * timestamp :=
  (t_id t, t_product_id t, t_quantity t, t_total_price t, t_profit t,
   t_transaction_date t).

(** The calls of [update_product] among the operations. *)
Definition is_update_product (o : operation) : bool :=
  match o with
  | Update_product _ _ _ _ _ _ => true
  | _ => false
  end.

(** Product id [product_id] is not in the table and, its AUTOINCREMENT
    counter having passed it, will not be handed out again. *)
Definition id_retired (product_id : Z) (d : database) : Prop :=
  product_id <= products_seq d
  /\ forall p, In p (products d) -> p_id p <> product_id.

(** The sample database after one sale of two units, recorded with the
    snapshot values [total_price = 1000] and [profit = 200]. *)
Definition sample_sale : transaction :=
  {| t_id := 1; t_product_id := 1; t_quantity := 2;
     t_total_price := Real.of_Z 1000; t_profit := Real.of_Z 200;
     t_transaction_date := 5 * us_per_day |}.

Definition sample_database_sold : database :=
  {| products := [with_stock sample_product 3]; transactions := [sample_sale];
     products_seq := 1; transactions_seq := 1 |}.

(** The sample database after [restock_product] was called with -7 on its
    product: the stock of product 1 is -2. *)
Definition sample_database_negative : database :=
  snd (restock_product sample_database 1 (-7)).

(** ** The demo catalog as it is read back *)

(** The columns of a product row that the seeding never rewrites. *)
Definition catalog_entry (p : product) : string * string * real * real :=
  (p_name p, p_category p, p_price p, p_cost p).

Definition data_entry (x : string * string * Z * Z * Z)
    : string * string * real * real :=
  let '(name, category, price, cost, _) := x in
  (name, category, Real.of_Z price, Real.of_Z cost).

Definition data_stock (x : string * string * Z * Z * Z) : Z :=
  let '(_, _, _, _, stock) := x in stock.

Definition demo_catalog : list (string * string * real * real) :=
  map data_entry products_data.

(** An environment in which the clock stands at 07:00 of day 20 and the
    random source always delivers the raw number 0, so that [randint] yields
    its lower bound and [choice] the first element. *)
Definition early_morning : timestamp := 20 * us_per_day + 7 * us_per_hour.

Definition early_morning_environment : environment :=
  {| random_raw := fun _ => 0;
     datetime_now := fun _ => early_morning;
     current_timestamp := fun _ => early_morning |}.

(** A date the seeding can write: some reading of the clock, less a number
    of days from 0 to 7, of hours from 8 to 20 and of minutes from 0 to 59. *)
Definition seeded_date (e : environment) (date : timestamp) : Prop :=
  exists k day_offset hours minutes,
    0 <= day_offset <= 7 /\ 8 <= hours <= 20 /\ 0 <= minutes <= 59
    /\ date = datetime_now e k - timedelta day_offset hours minutes.


(** ** The remaining queries of [database.py] *)

(** [ORDER BY key] (ascending), by the same insertion sort. *)
Definition order_by_asc {A K : Type} (ltb : K -> K -> bool) (key : A -> K)
    (l : list A) : list A :=
  order_by_desc (fun a b => ltb b a) key l.

(** [SELECT DISTINCT category FROM products ORDER BY category]; text is
    compared byte by byte, as SQLite's default collation does. *)
Definition get_categories (d : database) : list string :=
  order_by_asc String.ltb (fun c => c)
    (nodup string_dec (map p_category (products d))).

(** [DATE(transaction_date)], as a day number. *)
Definition transaction_day (t : transaction) : Z :=
  calendar_day (t_transaction_date t).


Record today_summary : Type := mkTodaySummary {
  ts_total_sales : real;
  ts_total_profit : real;
  ts_total_items : Z
}.

Section Aggregates.

(** SQLite's [SUM] over the REAL values of a group.  How it accumulates the
    binary64 values is a matter of the SQLite version; the queries are
    embedded for any such function. *)
Variable sum_real : list real -> real.


(** [get_today_summary()]: the sums over the transactions whose date is
    [DATE('now')], the date of SQLite's clock; [COALESCE] turns the NULL of
    an empty sum into 0. *)
Definition get_today_summary (d : database) (current_timestamp : timestamp)
    : today_summary :=
  let today :=
    filter (fun t => transaction_day t =? calendar_day current_timestamp)
           (transactions d) in
  match today with
  | [] =>
      {| ts_total_sales := Real.zero; ts_total_profit := Real.zero;
         ts_total_items := 0 |}
  | _ :: _ =>
      {| ts_total_sales := sum_real (map t_total_price today);
         ts_total_profit := sum_real (map t_profit today);
         ts_total_items := sum_quantity today |}
  end.

End Aggregates.

(** One such function, used in the examples: the sum taken from left to
    right in binary64. *)
Definition sum_left_to_right (xs : list real) : real :=
  fold_left (SFadd Real.prec Real.emax) xs Real.zero.

(** ** The sale form of [app.py] *)

(** What the submit branch of [render_sidebar] does with the database:
    [if submitted and quantity > 0], it reads the product again, refuses the
    sale when the stock is below the quantity, and otherwise records the
    transaction at the current price and cost and decrements the stock. *)
Inductive sale_outcome : Type :=
  | Nothing_submitted
  | Stock_insufficient
  | Sale_recorded.

(** [None] stands for the [TypeError] that subscripting the [None] of a
    missing product raises. *)
Definition submit_transaction (d : database) (current_timestamp : timestamp)
    (submitted : bool) (selected_product_id quantity : Z)
    : option (sale_outcome * database) :=
  if submitted && (0 <? quantity) then
    match get_product_by_id d selected_product_id with
    | None => None
    | Some current_product =>
        if p_stock current_product <? quantity then
          Some (Stock_insufficient, d)
        else
          let final_total :=
            Real.mul (p_price current_product) (Real.of_Z quantity) in
          let final_profit :=
            Real.mul (Real.sub (p_price current_product)
                               (p_cost current_product))
                     (Real.of_Z quantity) in
          let d1 :=
            snd (add_transaction d current_timestamp selected_product_id
                   quantity final_total final_profit) in
          let d2 := snd (update_stock d1 selected_product_id quantity) in
          Some (Sale_recorded, d2)
    end
  else Some (Nothing_submitted, d).

(** ** States the module can reach *)

(** The databases that calls of the module produce from a file without
    tables. *)
Definition reachable (d : database) : Prop :=
  exists os, d = perform_all (create_tables None) os.

(** Strictly ascending ids: the order of [SELECT ... ORDER BY id] with a
    primary key. *)
Definition ascending_ids (ps : list product) : Prop :=
  StronglySorted Z.lt (map p_id ps).

Definition stocks_not_negative (d : database) : Prop :=
  forall p, In p (products d) -> 0 <= p_stock p.

(** What AUTOINCREMENT and the primary keys maintain in both tables: ids in
    strictly ascending row order, none above the counter of its table. *)
Definition keys_ok (d : database) : Prop :=
  ascending_ids (products d)
  /\ products_seq_ok d
  /\ StronglySorted Z.lt (map t_id (transactions d))
  /\ (forall t, In t (transactions d) -> t_id t <= transactions_seq d).

(** The units of product [product_id] that the stored transactions sold. *)
Definition quantity_sold (d : database) (product_id : Z) : Z :=
  sum_quantity
    (filter (fun t => t_product_id t =? product_id) (transactions d)).

(** ** The restock recommendation of [app.py] *)

(** * Properties *)

(** ** Lookups after an update of the products table *)

Section ProductUpdates.
Variable upd : product -> product.
Hypothesis upd_id : forall p, p_id (upd p) = p_id p.

Let update_where (product_id : Z) (ps : list product) : list product :=
  map (fun p => if p_id p =? product_id then upd p else p) ps.

Lemma find_update_same (product_id : Z) (ps : list product) :
  find (fun p => p_id p =? product_id) (update_where product_id ps)
  = option_map upd (find (fun p => p_id p =? product_id) ps).
Proof.
  induction ps as [|p ps IH]; simpl; [reflexivity|].
  destruct (p_id p =? product_id) eqn:E; simpl.
  - rewrite upd_id, E. reflexivity.
  - rewrite E. exact IH.
Qed.

Lemma find_update_other (product_id other : Z) (ps : list product) :
  other <> product_id ->
  find (fun p => p_id p =? other) (update_where product_id ps)
  = find (fun p => p_id p =? other) ps.
Proof.
  intros Hne. induction ps as [|p ps IH]; simpl; [reflexivity|].
  destruct (p_id p =? product_id) eqn:E; simpl.
  - rewrite upd_id. apply Z.eqb_eq in E.
    destruct (p_id p =? other) eqn:E'; [apply Z.eqb_eq in E'; lia | exact IH].
  - destruct (p_id p =? other); [reflexivity | exact IH].
Qed.

Lemma map_id_update (product_id : Z) (ps : list product) :
  map p_id (update_where product_id ps) = map p_id ps.
Proof.
  induction ps as [|p ps IH]; simpl; [reflexivity|].
  rewrite IH. destruct (p_id p =? product_id); [rewrite upd_id|]; reflexivity.
Qed.
End ProductUpdates.

Lemma get_product_set_stock (d : database) (new_stock product_id : Z) :
  get_product_by_id
    (with_products d (set_stock new_stock product_id (products d))) product_id
  = option_map (fun p => with_stock p new_stock)
      (get_product_by_id d product_id).
Proof.
  unfold get_product_by_id, set_stock; simpl.
  apply (find_update_same (fun p => with_stock p new_stock)). reflexivity.
Qed.

Lemma get_product_set_stock_other (d : database) (new_stock product_id other : Z) :
  other <> product_id ->
  get_product_by_id
    (with_products d (set_stock new_stock product_id (products d))) other
  = get_product_by_id d other.
Proof.
  intros H. unfold get_product_by_id, set_stock; simpl.
  apply (find_update_other (fun p => with_stock p new_stock)); auto.
Qed.

(** ** Sales decrement the stock, never below zero *)

Lemma update_stock_existing (d : database) (product_id q : Z) (p : product) :
  get_product_by_id d product_id = Some p ->
  (fst (update_stock d product_id q) = true <-> q <= p_stock p)
  /\ (q <= p_stock p ->
      option_map p_stock
        (get_product_by_id (snd (update_stock d product_id q)) product_id)
      = Some (p_stock p - q))
  /\ (p_stock p < q -> update_stock d product_id q = (false, d)).
Proof.
  intros Hp. unfold update_stock. rewrite Hp. simpl.
  destruct (p_stock p <? q) eqn:E.
  - apply Z.ltb_lt in E. simpl. repeat split; intros; try lia; try discriminate.
  - apply Z.ltb_ge in E. simpl. repeat split; intros; try lia.
    rewrite get_product_set_stock, Hp. reflexivity.
Qed.

Lemma update_stock_absent (d : database) (product_id q : Z) :
  get_product_by_id d product_id = None ->
  update_stock d product_id q = (false, d).
Proof. intros Hn. unfold update_stock. rewrite Hn. reflexivity. Qed.

(** The call with its exception, for a product that is there. *)
Lemma update_stock_call_existing (d : database) (product_id q : Z) (p : product) :
  get_product_by_id d product_id = Some p ->
  update_stock_call d product_id q
  = if p_stock p <? q then Returns false d
    else if int64 (p_stock p - q)
         then Returns true
                (with_products d
                   (set_stock (p_stock p - q) product_id (products d)))
         else Raises_OverflowError d.
Proof. intros Hp. unfold update_stock_call. rewrite Hp. reflexivity. Qed.

Lemma update_stock_call_absent (d : database) (product_id q : Z) :
  get_product_by_id d product_id = None ->
  update_stock_call d product_id q = Returns false d.
Proof. intros Hn. unfold update_stock_call. rewrite Hn. reflexivity. Qed.

(** A call that returns, returns what [update_stock] gives. *)
Lemma update_stock_call_returns (d d' : database) (product_id q : Z) (b : bool) :
  update_stock_call d product_id q = Returns b d' ->
  update_stock d product_id q = (b, d').
Proof.
  unfold update_stock_call, update_stock.
  destruct (option_map p_stock (get_product_by_id d product_id)) as [s|].
  - destruct (s <? q).
    + intros H; injection H as <- <-; reflexivity.
    + cbv zeta. destruct (int64 (s - q)).
      * intros H; injection H as <- <-; reflexivity.
      * discriminate.
  - intros H; injection H as <- <-; reflexivity.
Qed.

Lemma int64_spec (n : Z) :
  int64 n = true <-> - 2 ^ 63 <= n <= 2 ^ 63 - 1.
Proof.
  unfold int64. rewrite andb_true_iff, !Z.leb_le. reflexivity.
Qed.

(** The statement of C1 fails: product 1 of the sample database has stock 5,
    and the quantity [- 2 ^ 63], a 64-bit integer, is at most 5, but the call
    does not return [True]: the new stock [5 + 2 ^ 63] is no 64-bit integer
    and the [UPDATE] raises [OverflowError]. *)
Lemma update_stock_overflow :
  ~ (forall (d : database) (product_id q : Z) (p : product),
       get_product_by_id d product_id = Some p ->
       int64 (p_stock p) = true ->
       int64 q = true ->
       ((exists d', update_stock_call d product_id q = Returns true d')
        <-> q <= p_stock p)).
Proof.
  intros H.
  destruct (H sample_database 1 (- 2 ^ 63) sample_product
              eq_refl eq_refl eq_refl) as [_ H2].
  destruct H2 as [d' Hd']; [simpl; lia|].
  vm_compute in Hd'. discriminate Hd'.
Qed.

(** C1, amended.  For an existing product with stock [s], [update_stock] with
    quantity [q] returns [True] exactly when [q <= s] and [s - q] is a 64-bit
    integer, and then the stock read back is [s - q]; when [q <= s] and
    [s - q] is no 64-bit integer it raises [OverflowError] and the database
    is the one it was given; when [s < q], or when the product is absent, it
    returns [False] and the database is the one it was given.  For a
    quantity [0 <= q] and a stock that is a 64-bit integer, it returns [True]
    exactly when [q <= s]. *)
Theorem update_stock_spec (d : database) (product_id q : Z) :
  (forall p, get_product_by_id d product_id = Some p ->
     let s := p_stock p in
     ((exists d', update_stock_call d product_id q = Returns true d')
      <-> q <= s /\ int64 (s - q) = true)
     /\ (forall d', update_stock_call d product_id q = Returns true d' ->
         option_map p_stock (get_product_by_id d' product_id) = Some (s - q))
     /\ (q <= s -> int64 (s - q) = false ->
         update_stock_call d product_id q = Raises_OverflowError d)
     /\ (s < q -> update_stock_call d product_id q = Returns false d)
     /\ (0 <= q -> int64 s = true ->
         ((exists d', update_stock_call d product_id q = Returns true d')
          <-> q <= s)))
  /\ (get_product_by_id d product_id = None ->
      update_stock_call d product_id q = Returns false d).
Proof.
  split; [|apply update_stock_call_absent].
  intros p Hp s.
  pose proof (update_stock_call_existing d product_id q p Hp) as E.
  fold s in E.
  assert (Hiff : (exists d', update_stock_call d product_id q = Returns true d')
                 <-> q <= s /\ int64 (s - q) = true).
  { rewrite E. destruct (s <? q) eqn:L.
    - apply Z.ltb_lt in L. split.
      + intros [d' H]; discriminate H.
      + intros [H _]; lia.
    - apply Z.ltb_ge in L. destruct (int64 (s - q)); split.
      + intros _; split; [exact L | reflexivity].
      + intros _; eexists; reflexivity.
      + intros [d' H]; discriminate H.
      + intros [_ H]; discriminate H. }
  split; [exact Hiff|]. split; [|split; [|split]].
  - intros d' H. rewrite E in H.
    destruct (s <? q); [discriminate H|].
    destruct (int64 (s - q)); [|discriminate H].
    injection H as <-. rewrite get_product_set_stock, Hp. reflexivity.
  - intros Hle Hov. rewrite E, Hov.
    destruct (s <? q) eqn:L; [apply Z.ltb_lt in L; lia | reflexivity].
  - intros Hlt. rewrite E.
    destruct (s <? q) eqn:L; [reflexivity | apply Z.ltb_ge in L; lia].
  - intros Hq Hs. apply int64_spec in Hs. split.
    + intros H. apply Hiff in H. exact (proj1 H).
    + intros Hle. apply Hiff. split; [exact Hle|]. apply int64_spec. lia.
Qed.

(** A successful sale leaves the transactions and every other product alone. *)
Lemma update_stock_frame (d : database) (product_id q other : Z) :
  transactions (snd (update_stock d product_id q)) = transactions d
  /\ (other <> product_id ->
      get_product_by_id (snd (update_stock d product_id q)) other
      = get_product_by_id d other).
Proof.
  unfold update_stock.
  destruct (option_map p_stock (get_product_by_id d product_id)) as [s|];
    [destruct (s <? q)|]; simpl; split; auto.
  intros H. apply get_product_set_stock_other; exact H.
Qed.

(** ** Restocking *)

Lemma restock_product_call_existing (d : database) (product_id q : Z)
    (p : product) :
  get_product_by_id d product_id = Some p ->
  restock_product_call d product_id q
  = if int64 (p_stock p + q)
    then Returns true
           (with_products d
              (set_stock (p_stock p + q) product_id (products d)))
    else Raises_OverflowError d.
Proof. intros Hp. unfold restock_product_call. rewrite Hp. reflexivity. Qed.

Lemma restock_product_call_returns (d d' : database) (product_id q : Z)
    (b : bool) :
  restock_product_call d product_id q = Returns b d' ->
  restock_product d product_id q = (b, d').
Proof.
  unfold restock_product_call, restock_product.
  destruct (option_map p_stock (get_product_by_id d product_id)) as [s|].
  - cbv zeta. destruct (int64 (s + q)).
    + intros H; injection H as <- <-; reflexivity.
    + discriminate.
  - intros H; injection H as <- <-; reflexivity.
Qed.

(** The statement of C9 fails: product 1 of the sample database has stock 5,
    and for the 64-bit integer [q = 2 ^ 63 - 5] the call does not return
    [True]: the sum [2 ^ 63] is no 64-bit integer and the [UPDATE] raises
    [OverflowError]. *)
Lemma restock_product_overflow :
  ~ (forall (d : database) (product_id q : Z) (p : product),
       get_product_by_id d product_id = Some p ->
       int64 (p_stock p) = true ->
       int64 q = true ->
       exists d',
         restock_product_call d product_id q = Returns true d'
         /\ option_map p_stock (get_product_by_id d' product_id)
            = Some (p_stock p + q)).
Proof.
  intros H.
  destruct (H sample_database 1 (2 ^ 63 - 5) sample_product
              eq_refl eq_refl eq_refl) as (d' & Hd' & _).
  vm_compute in Hd'. discriminate Hd'.
Qed.

(** C9, amended.  For an existing product with stock [s] and an integer [q],
    negative ones included, such that [s + q] is a 64-bit integer,
    [restock_product] returns [True] and the stock read back is [s + q];
    nothing keeps [s + q] from being negative, so that for [q < - s] the
    stock read back is below zero.  When [s + q] is no 64-bit integer the
    call raises [OverflowError] and the database is the one it was given. *)
Theorem restock_product_spec (d : database) (product_id q : Z) (p : product) :
  get_product_by_id d product_id = Some p ->
  let s := p_stock p in
  (int64 (s + q) = true ->
   exists d',
     restock_product_call d product_id q = Returns true d'
     /\ option_map p_stock (get_product_by_id d' product_id) = Some (s + q)
     /\ (q < - s ->
         exists p', get_product_by_id d' product_id = Some p'
                    /\ p_stock p' < 0))
  /\ (int64 (s + q) = false ->
      restock_product_call d product_id q = Raises_OverflowError d).
Proof.
  intros Hp s.
  rewrite (restock_product_call_existing d product_id q p Hp). fold s.
  split; intros Hr; rewrite Hr; [|reflexivity].
  eexists. split; [reflexivity|].
  rewrite get_product_set_stock, Hp. simpl.
  split; [reflexivity|].
  intros Hq. eexists; split; [reflexivity|]. simpl. lia.
Qed.

Lemma restock_product_absent (d : database) (product_id q : Z) :
  get_product_by_id d product_id = None ->
  restock_product d product_id q = (false, d).
Proof. intros H. unfold restock_product. rewrite H. reflexivity. Qed.

Lemma update_stock_spec_witness :
  get_product_by_id sample_database 1 = Some sample_product
  /\ ((exists d', update_stock_call sample_database 1 5 = Returns true d')
      <-> 5 <= 5 /\ int64 (5 - 5) = true)
  /\ (forall d', update_stock_call sample_database 1 5 = Returns true d' ->
      option_map p_stock (get_product_by_id d' 1) = Some 0)
  /\ update_stock_call sample_database 1 (- 2 ^ 63)
     = Raises_OverflowError sample_database
  /\ update_stock_call sample_database 1 6 = Returns false sample_database
  /\ update_stock_call sample_database 2 1 = Returns false sample_database.
Proof.
  split; [reflexivity|].
  destruct (update_stock_spec sample_database 1 5) as [H _].
  destruct (H sample_product eq_refl) as (H1 & H2 & _).
  split; [exact H1|]. split; [exact H2|].
  destruct (update_stock_spec sample_database 1 (- 2 ^ 63)) as [H' _].
  destruct (H' sample_product eq_refl) as (_ & _ & H3 & _).
  split; [apply H3; [simpl; lia | reflexivity]|].
  destruct (update_stock_spec sample_database 1 6) as [H'' _].
  destruct (H'' sample_product eq_refl) as (_ & _ & _ & H4 & _).
  split; [apply H4; simpl; lia|].
  destruct (update_stock_spec sample_database 2 1) as [_ H5].
  apply H5. reflexivity.
Defined.

Lemma restock_product_spec_witness :
  (exists d',
     restock_product_call sample_database 1 (-7) = Returns true d'
     /\ option_map p_stock (get_product_by_id d' 1) = Some (-2))
  /\ restock_product_call sample_database 1 (2 ^ 63 - 5)
     = Raises_OverflowError sample_database.
Proof.
  split.
  - destruct (restock_product_spec sample_database 1 (-7) sample_product
                eq_refl) as [H _].
    destruct (H eq_refl) as (d' & H1 & H2 & _).
    exists d'. split; [exact H1 | exact H2].
  - destruct (restock_product_spec sample_database 1 (2 ^ 63 - 5)
                sample_product eq_refl) as [_ H].
    apply H. reflexivity.
Defined.

(** ** Negative quantities *)

(** The statement of C4 fails: on the sample database, whose product 1 has
    stock 5, [update_stock] and [restock_product] with quantity -3 both
    return [True], and leave the stock at 8 and at 2. *)
Lemma negative_quantity_not_rejected :
  ~ (forall (d : database) (product_id q : Z) (p : product),
       get_product_by_id d product_id = Some p ->
       int64 (p_stock p) = true ->
       int64 q = true ->
       q < 0 ->
       ((forall d', update_stock_call d product_id q <> Returns true d')
        /\ option_map p_stock
             (get_product_by_id
                (database_after (update_stock_call d product_id q)) product_id)
           = Some (p_stock p))
       /\ ((forall d', restock_product_call d product_id q <> Returns true d')
           /\ option_map p_stock
                (get_product_by_id
                   (database_after (restock_product_call d product_id q))
                   product_id)
              = Some (p_stock p))).
Proof.
  intros H.
  destruct (H sample_database 1 (-3) sample_product eq_refl eq_refl eq_refl
              ltac:(lia)) as [[_ H1] _].
  vm_compute in H1. discriminate H1.
Qed.

(** C4, amended.  The module checks no sign.  For an existing product with
    stock [s] and a negative quantity [q]: [restock_product] returns [True]
    and sets the stock to [s + q], which is less than [s], whenever [s + q]
    is a 64-bit integer, and raises [OverflowError], writing nothing,
    otherwise; [update_stock] returns [False], writing nothing, when
    [s < q], returns [True] and sets the stock to [s - q], which is more than
    [s], when [q <= s] and [s - q] is a 64-bit integer, and raises
    [OverflowError], writing nothing, when [q <= s] and [s - q] is no 64-bit
    integer.  So on a stock [0 <= s] a negative quantity is never answered
    with [False] by [update_stock]. *)
Theorem negative_quantity_spec (d : database) (product_id q : Z) (p : product) :
  get_product_by_id d product_id = Some p ->
  q < 0 ->
  let s := p_stock p in
  (int64 (s + q) = true ->
   exists d',
     restock_product_call d product_id q = Returns true d'
     /\ option_map p_stock (get_product_by_id d' product_id) = Some (s + q)
     /\ s + q < s)
  /\ (int64 (s + q) = false ->
      restock_product_call d product_id q = Raises_OverflowError d)
  /\ (s < q -> update_stock_call d product_id q = Returns false d)
  /\ (q <= s -> int64 (s - q) = true ->
      exists d',
        update_stock_call d product_id q = Returns true d'
        /\ option_map p_stock (get_product_by_id d' product_id) = Some (s - q)
        /\ s < s - q)
  /\ (q <= s -> int64 (s - q) = false ->
      update_stock_call d product_id q = Raises_OverflowError d)
  /\ (0 <= s -> forall d', update_stock_call d product_id q <> Returns false d').
Proof.
  intros Hp Hq s.
  rewrite (restock_product_call_existing d product_id q p Hp).
  rewrite (update_stock_call_existing d product_id q p Hp). fold s.
  split; [|split; [|split; [|split; [|split]]]].
  - intros Hr. rewrite Hr. eexists. split; [reflexivity|].
    rewrite get_product_set_stock, Hp. split; [reflexivity | lia].
  - intros Hr. rewrite Hr. reflexivity.
  - intros Hlt. destruct (s <? q) eqn:L;
      [reflexivity | apply Z.ltb_ge in L; lia].
  - intros Hle Hr. destruct (s <? q) eqn:L; [apply Z.ltb_lt in L; lia|].
    rewrite Hr. eexists. split; [reflexivity|].
    rewrite get_product_set_stock, Hp. split; [reflexivity | lia].
  - intros Hle Hr. destruct (s <? q) eqn:L; [apply Z.ltb_lt in L; lia|].
    rewrite Hr. reflexivity.
  - intros Hs d'. destruct (s <? q) eqn:L; [apply Z.ltb_lt in L; lia|].
    destruct (int64 (s - q)); discriminate.
Qed.

Lemma negative_quantity_spec_witness :
  (exists d',
     restock_product_call sample_database 1 (-3) = Returns true d'
     /\ option_map p_stock (get_product_by_id d' 1) = Some 2)
  /\ (exists d',
        update_stock_call sample_database 1 (-3) = Returns true d'
        /\ option_map p_stock (get_product_by_id d' 1) = Some 8)
  /\ update_stock_call sample_database 1 (- 2 ^ 63)
     = Raises_OverflowError sample_database.
Proof.
  destruct (negative_quantity_spec sample_database 1 (-3) sample_product
              eq_refl ltac:(lia)) as (R1 & _ & _ & U1 & _).
  destruct (R1 eq_refl) as (d1 & E1 & S1 & _).
  destruct (U1 ltac:(simpl; lia) eq_refl) as (d2 & E2 & S2 & _).
  split; [exists d1; split; [exact E1 | exact S1]|].
  split; [exists d2; split; [exact E2 | exact S2]|].
  destruct (negative_quantity_spec sample_database 1 (- 2 ^ 63) sample_product
              eq_refl ltac:(lia)) as (_ & _ & _ & _ & U2 & _).
  apply U2; [simpl; lia | reflexivity].
Defined.

(** ** ORDER BY keeps the rows *)

Section OrderByFacts.
Context {A K : Type} (ltb : K -> K -> bool) (key : A -> K).

Lemma in_insert_desc (a x : A) (l : list A) :
  In x (insert_desc ltb key a l) <-> x = a \/ In x l.
Proof.
  induction l as [|y l IH]; simpl.
  - intuition.
  - destruct (ltb (key a) (key y)); simpl; rewrite ?IH; intuition.
Qed.

Lemma in_order_by_desc (x : A) (l : list A) :
  In x (order_by_desc ltb key l) <-> In x l.
Proof.
  induction l as [|y l IH]; simpl; [tauto|].
  rewrite in_insert_desc, IH. intuition.
Qed.

Lemma length_insert_desc (a : A) (l : list A) :
  List.length (insert_desc ltb key a l) = S (List.length l).
Proof.
  induction l as [|y l IH]; simpl; [reflexivity|].
  destruct (ltb (key a) (key y)); simpl; [rewrite IH|]; reflexivity.
Qed.

Lemma length_order_by_desc (l : list A) :
  List.length (order_by_desc ltb key l) = List.length l.
Proof.
  induction l as [|y l IH]; simpl; [reflexivity|].
  rewrite length_insert_desc, IH. reflexivity.
Qed.
End OrderByFacts.

Lemma map_order_by_desc {A B K : Type} (ltb : K -> K -> bool)
    (key : A -> K) (key' : B -> K) (f : A -> B) (l : list A) :
  (forall x, key' (f x) = key x) ->
  map f (order_by_desc ltb key l) = order_by_desc ltb key' (map f l).
Proof.
  intros Hk. induction l as [|a l IH]; simpl; [reflexivity|].
  rewrite <- IH. generalize (order_by_desc ltb key l) as s.
  induction s as [|y s IHs]; simpl; [reflexivity|].
  rewrite !Hk. destruct (ltb (key a) (key y)); simpl; [rewrite IHs|]; reflexivity.
Qed.

Lemma map_filter_comm {A B : Type} (f : A -> B) (g : B -> bool) (l : list A) :
  map f (filter (fun x => g (f x)) l) = filter g (map f l).
Proof.
  induction l as [|a l IH]; simpl; [reflexivity|].
  destruct (g (f a)); simpl; rewrite IH; reflexivity.
Qed.

(** ** The rows of [get_transactions] *)

Lemma join_products_rows (ps : list product) (t : transaction) :
  join_products ps t
  = map (joined_row t) (filter (fun p => t_product_id t =? p_id p) ps).
Proof. reflexivity. Qed.

(** A row is returned exactly when it joins a stored transaction that lies in
    the window with a stored product of the same id. *)
Lemma in_get_transactions (d : database) (now : timestamp) (days : Z)
    (r : transaction_row) :
  In r (get_transactions d now days) <->
  exists t p,
    In t (transactions d) /\ In p (products d)
    /\ t_product_id t = p_id p
    /\ now - timedelta days 0 0 <= t_transaction_date t
    /\ r = joined_row t p.
Proof.
  unfold get_transactions. rewrite in_order_by_desc, filter_In, in_flat_map.
  split.
  - intros [[t [Ht Hr]] Hw]. rewrite join_products_rows in Hr.
    apply in_map_iff in Hr. destruct Hr as [p [Hr Hp]].
    apply filter_In in Hp. destruct Hp as [Hp Hid].
    exists t, p. subst r. simpl in Hw.
    apply Z.leb_le in Hw. apply Z.eqb_eq in Hid. auto.
  - intros (t & p & Ht & Hp & Hid & Hw & Hr). subst r. split.
    + exists t. split; [exact Ht|]. rewrite join_products_rows.
      apply in_map. apply filter_In. split; [exact Hp|].
      apply Z.eqb_eq. exact Hid.
    + simpl. apply Z.leb_le. exact Hw.
Qed.

(** Every returned row belongs to a product that is in the table. *)
Lemma get_transactions_product (d : database) (now : timestamp) (days : Z)
    (r : transaction_row) :
  In r (get_transactions d now days) ->
  exists p, In p (products d) /\ p_id p = r_product_id r.
Proof.
  intros H. apply in_get_transactions in H.
  destruct H as (t & p & _ & Hp & Hid & _ & Hr). subst r.
  exists p. split; [exact Hp|]. simpl. congruence.
Qed.

Lemma get_product_by_id_in (d : database) (product_id : Z) (p : product) :
  get_product_by_id d product_id = Some p ->
  In p (products d) /\ p_id p = product_id.
Proof.
  intros H. apply find_some in H. destruct H as [H1 H2].
  apply Z.eqb_eq in H2. auto.
Qed.

Lemma get_product_by_id_none (d : database) (product_id : Z) :
  get_product_by_id d product_id = None <->
  (forall p, In p (products d) -> p_id p <> product_id).
Proof.
  unfold get_product_by_id. split.
  - intros H p Hp Hid.
    pose proof (find_none _ _ H p Hp) as Hn. simpl in Hn.
    apply Z.eqb_neq in Hn. contradiction.
  - intros H. destruct (find _ _) as [p|] eqn:E; [|reflexivity].
    apply find_some in E. destruct E as [E1 E2]. apply Z.eqb_eq in E2.
    exfalso. exact (H p E1 E2).
Qed.

(** ** Invariants of the seeding loops *)

(** A property of the database that [add_product], [add_transaction] and
    [update_stock] preserve is preserved by [generate_dummy_data]. *)
Section SeedingInvariant.
Variable P : database -> Prop.
Hypothesis P_add_product :
  forall d ts name category price cost stock,
    P d -> P (snd (add_product d ts name category price cost stock)).
Hypothesis P_add_transaction :
  forall d ts product_id quantity total_price profit,
    P d ->
    P (snd (add_transaction d ts product_id quantity total_price profit)).
Hypothesis P_update_stock :
  forall d product_id q, P d -> P (snd (update_stock d product_id q)).

Lemma insert_products_inv (e : environment) data :
  forall d ticks, P d -> P (snd (fst (insert_products e data d ticks))).
Proof.
  induction data as [|[[[[name category] price] cost] stock] data IH];
    intros d ticks Hd; simpl; [exact Hd|].
  specialize (IH (snd (add_product d (current_timestamp e ticks) name category
                         (Real.of_Z price) (Real.of_Z cost) stock))
                 (S ticks)).
  unfold add_product in *. simpl in *.
  destruct (insert_products e data _ (S ticks)) as [[ids d2] ticks2].
  simpl in *. apply IH.
  exact (P_add_product d (current_timestamp e ticks) name category
           (Real.of_Z price) (Real.of_Z cost) stock Hd).
Qed.

Lemma seed_transaction_inv (e : environment) (day_offset : Z)
    (product_ids : list Z) (s : seeding) :
  P (s_database s) ->
  P (s_database (snd (seed_transaction e day_offset product_ids s))).
Proof.
  intros Hs. unfold seed_transaction.
  destruct (get_product_by_id _ _) as [product|]; simpl; [|exact Hs].
  destruct (0 <? p_stock product); simpl; [|exact Hs].
  apply P_update_stock. unfold add_transaction_with_date.
  apply P_add_transaction. exact Hs.
Qed.

Lemma seed_day_inv (e : environment) (day_offset : Z)
    (product_ids : list Z) (iterations : nat) :
  forall s, P (s_database s) ->
            P (s_database (seed_day e day_offset product_ids iterations s)).
Proof.
  induction iterations as [|n IH]; intros s Hs; simpl; [exact Hs|].
  pose proof (seed_transaction_inv e day_offset product_ids s Hs) as H1.
  destruct (seed_transaction e day_offset product_ids s) as [written s1].
  simpl in H1.
  destruct (written && (50 <=? transaction_count s1)); [exact H1|].
  apply IH. exact H1.
Qed.

Lemma seed_days_inv (e : environment) (day_offsets : list Z)
    (product_ids : list Z) :
  forall s, P (s_database s) ->
            P (s_database (seed_days e day_offsets product_ids s)).
Proof.
  induction day_offsets as [|day_offset rest IH]; intros s Hs; simpl;
    [exact Hs|].
  match goal with
  | |- context [seed_day e day_offset product_ids ?n ?s0] =>
      pose proof (seed_day_inv e day_offset product_ids n s0 Hs) as H1;
      destruct (50 <=? transaction_count
                         (seed_day e day_offset product_ids n s0))
  end; [exact H1|].
  apply IH. exact H1.
Qed.

Lemma generate_dummy_data_inv (e : environment) (d : database) :
  P d -> P (s_database (generate_dummy_data e d)).
Proof.
  intros Hd. unfold generate_dummy_data.
  pose proof (insert_products_inv e products_data d 0%nat Hd) as H1.
  destruct (insert_products e products_data d 0%nat) as [[ids d1] ticks].
  simpl in H1. apply seed_days_inv. exact H1.
Qed.

Lemma initialize_database_inv (e : environment) (d : database) :
  P d -> P (snd (initialize_database e (Some d))).
Proof.
  intros Hd. unfold initialize_database.
  change (create_tables (Some d)) with d.
  destruct (is_database_empty d); cbn [snd]; [|exact Hd].
  apply generate_dummy_data_inv. exact Hd.
Qed.
End SeedingInvariant.

(** ** Deleting a product *)

Lemma max_rowid_ge {A : Type} (rowid : A -> Z) (rows : list A) (r : A) :
  In r rows -> rowid r <= max_rowid rowid rows.
Proof.
  induction rows as [|a rows IH]; simpl; [tauto|].
  intros [->|H]; [lia|]. specialize (IH H). lia.
Qed.

Lemma next_rowid_fresh {A : Type} (rowid : A -> Z) (rows : list A) (seq : Z)
    (r : A) :
  In r rows -> rowid r < next_rowid rowid rows seq.
Proof.
  intros H. apply (max_rowid_ge rowid) in H. unfold next_rowid. lia.
Qed.

Lemma in_update_where (upd : product -> product) (product_id : Z)
    (ps : list product) (p : product) :
  (forall q, p_id (upd q) = p_id q) ->
  In p (map (fun q => if p_id q =? product_id then upd q else q) ps) ->
  exists q, In q ps /\ p_id q = p_id p.
Proof.
  intros Hid H. apply in_map_iff in H. destruct H as [q [Hq Hin]].
  exists q. split; [exact Hin|]. subst p.
  destruct (p_id q =? product_id); [rewrite Hid|]; reflexivity.
Qed.

Section Retired.
Variable gone : Z.

Lemma retired_add_product d ts name category price cost stock :
  id_retired gone d ->
  id_retired gone (snd (add_product d ts name category price cost stock)).
Proof.
  intros [Hseq Hps]. unfold id_retired, add_product, next_rowid. simpl.
  split; [lia|]. intros p Hp. apply in_app_or in Hp.
  destruct Hp as [Hp|[<-|[]]]; [exact (Hps p Hp)|]. simpl. lia.
Qed.


Lemma retired_set_stock d new_stock product_id :
  id_retired gone d ->
  id_retired gone
    (with_products d (set_stock new_stock product_id (products d))).
Proof.
  intros [Hseq Hps]. split; [exact Hseq|]. simpl. intros p Hp.
  apply (in_update_where (fun q => with_stock q new_stock)) in Hp;
    [|reflexivity].
  destruct Hp as [q [Hq Hid]]. rewrite <- Hid. exact (Hps q Hq).
Qed.

Lemma retired_update_stock d product_id q :
  id_retired gone d -> id_retired gone (snd (update_stock d product_id q)).
Proof.
  intros H. unfold update_stock.
  destruct (option_map p_stock (get_product_by_id d product_id)) as [s|];
    [destruct (s <? q)|]; simpl; auto using retired_set_stock.
Qed.

Lemma retired_restock_product d product_id q :
  id_retired gone d -> id_retired gone (snd (restock_product d product_id q)).
Proof.
  intros H. unfold restock_product.
  destruct (option_map p_stock (get_product_by_id d product_id)) as [s|];
    simpl; auto using retired_set_stock.
Qed.

Lemma retired_update_product d product_id name category price cost stock :
  id_retired gone d ->
  id_retired gone
    (snd (update_product d product_id name category price cost stock)).
Proof.
  intros H. unfold update_product.
  destruct (get_product_by_id d product_id) as [product|]; simpl; [|exact H].
  destruct H as [Hseq Hps]. split; [exact Hseq|]. simpl. intros p Hp.
  apply (in_update_where
           (fun q => {| p_id := p_id q;
                        p_name := or_else name (p_name product);
                        p_category := or_else category (p_category product);
                        p_price := or_else price (p_price product);
                        p_cost := or_else cost (p_cost product);
                        p_stock := or_else stock (p_stock product);
                        p_created_at := p_created_at q |})) in Hp;
    [|reflexivity].
  destruct Hp as [q [Hq Hid]]. rewrite <- Hid. exact (Hps q Hq).
Qed.

Lemma retired_delete_product d product_id :
  id_retired gone d -> id_retired gone (snd (delete_product d product_id)).
Proof.
  intros H. unfold delete_product.
  destruct (get_product_by_id d product_id); simpl; [|exact H].
  destruct H as [Hseq Hps]. split; [exact Hseq|]. simpl. intros x Hx.
  apply filter_In in Hx. exact (Hps x (proj1 Hx)).
Qed.

Lemma retired_perform (d : database) (o : operation) :
  id_retired gone d -> id_retired gone (perform d o).
Proof.
  intros H. destruct o; cbn [perform].
  - apply retired_add_product; exact H.
  - apply retired_update_stock; exact H.
  - apply retired_restock_product; exact H.
  - apply retired_update_product; exact H.
  - apply retired_delete_product; exact H.
  - exact H.
  - exact H.
  - apply generate_dummy_data_inv;
      auto using retired_add_product, retired_update_stock.
  - apply initialize_database_inv;
      auto using retired_add_product, retired_update_stock.
Qed.

Lemma retired_perform_all (os : list operation) :
  forall d, id_retired gone d -> id_retired gone (perform_all d os).
Proof.
  induction os as [|o os IH]; intros d H; simpl; [exact H|].
  apply IH. apply retired_perform. exact H.
Qed.

Lemma retired_get_transactions (d : database) (now : timestamp) (days : Z)
    (r : transaction_row) :
  id_retired gone d ->
  In r (get_transactions d now days) -> r_product_id r <> gone.
Proof.
  intros [_ Hps] Hr. apply get_transactions_product in Hr.
  destruct Hr as [p [Hp Hid]]. rewrite <- Hid. exact (Hps p Hp).
Qed.
End Retired.

Lemma delete_product_existing (d : database) (product_id : Z) (p : product) :
  get_product_by_id d product_id = Some p ->
  fst (delete_product d product_id) = true
  /\ (forall q, In q (products (snd (delete_product d product_id))) ->
                p_id q <> product_id)
  /\ (forall t, In t (transactions (snd (delete_product d product_id))) ->
                t_product_id t <> product_id).
Proof.
  intros Hp. unfold delete_product. rewrite Hp. simpl. split; [reflexivity|].
  split; intros x Hx; apply filter_In in Hx; destruct Hx as [_ Hx];
    apply negb_true_iff, Z.eqb_neq in Hx; exact Hx.
Qed.

Lemma delete_product_retires (d : database) (product_id : Z) (p : product) :
  products_seq_ok d ->
  get_product_by_id d product_id = Some p ->
  id_retired product_id (snd (delete_product d product_id)).
Proof.
  intros Hok Hp.
  destruct (delete_product_existing d product_id p Hp) as (_ & Hps & _).
  split; [|exact Hps].
  apply get_product_by_id_in in Hp. destruct Hp as [Hin Hid].
  unfold delete_product, get_product_by_id.
  destruct (find _ _); simpl; rewrite <- Hid; exact (Hok p Hin).
Qed.

(** C2.  For an existing product id, [delete_product] returns [True];
    afterwards neither a product row with that id nor a transaction row with
    that [product_id] is left, and [get_transactions] returns no row for the
    id, whatever the window and the clock, neither at once nor after any
    further calls into the module.  For an id that is not in the table,
    [delete_product] returns [False] and leaves the database as it was. *)
Theorem delete_product_spec (d : database) (product_id : Z) :
  (forall p, get_product_by_id d product_id = Some p ->
     let d' := snd (delete_product d product_id) in
     fst (delete_product d product_id) = true
     /\ get_product_by_id d' product_id = None
     /\ (forall t, In t (transactions d') -> t_product_id t <> product_id)
     /\ (forall now days r,
           In r (get_transactions d' now days) -> r_product_id r <> product_id)
     /\ (products_seq_ok d ->
         forall os now days r,
           In r (get_transactions (perform_all d' os) now days) ->
           r_product_id r <> product_id))
  /\ (get_product_by_id d product_id = None ->
      delete_product d product_id = (false, d)).
Proof.
  split.
  - intros p Hp d'.
    destruct (delete_product_existing d product_id p Hp) as (Hok & Hps & Hts).
    fold d' in Hps, Hts.
    split; [exact Hok|]. split; [apply get_product_by_id_none; exact Hps|].
    split; [exact Hts|]. split.
    + intros now days r Hr. apply get_transactions_product in Hr.
      destruct Hr as [q [Hq Hid]]. rewrite <- Hid. exact (Hps q Hq).
    + intros Hseq os now days r Hr.
      eapply retired_get_transactions; [|exact Hr].
      apply retired_perform_all.
      exact (delete_product_retires d product_id p Hseq Hp).
  - intros Hn. unfold delete_product. rewrite Hn. reflexivity.
Qed.

Lemma delete_product_spec_witness :
  fst (delete_product sample_database_sold 1) = true
  /\ get_product_by_id (snd (delete_product sample_database_sold 1)) 1 = None
  /\ (forall os now days r,
        In r (get_transactions
                (perform_all (snd (delete_product sample_database_sold 1)) os)
                now days) ->
        r_product_id r <> 1)
  /\ delete_product sample_database_sold 2 = (false, sample_database_sold).
Proof.
  destruct (delete_product_spec sample_database_sold 1) as [H _].
  destruct (H (with_stock sample_product 3) eq_refl) as (H1 & H2 & _ & _ & H5).
  destruct (delete_product_spec sample_database_sold 2) as [_ H'].
  split; [exact H1|]. split; [exact H2|]. split.
  - apply H5. intros p [<-|[]]. simpl. lia.
  - apply H'. reflexivity.
Defined.

(** ** Recording a transaction *)

Lemma add_transaction_row (d : database) (ts : timestamp)
    (product_id quantity : Z) (total_price profit : real) (t : transaction) :
  In t (transactions
          (snd (add_transaction d ts product_id quantity total_price profit)))
  <-> In t (transactions d)
      \/ t = {| t_id := fst (add_transaction d ts product_id quantity
                               total_price profit);
                t_product_id := product_id; t_quantity := quantity;
                t_total_price := total_price; t_profit := profit;
                t_transaction_date := ts |}.
Proof.
  unfold add_transaction. simpl. rewrite in_app_iff. simpl. intuition.
Qed.





(** ** Snapshots survive edits of the product *)

Lemma snapshot_join_products (ps : list product) (t : transaction) :
  map snapshot (join_products ps t)
  = map (fun _ => (t_id t, t_product_id t, t_quantity t, t_total_price t,
                   t_profit t, t_transaction_date t))
        (filter (fun i => t_product_id t =? i) (map p_id ps)).
Proof.
  unfold join_products. induction ps as [|p ps IH]; simpl; [reflexivity|].
  destruct (t_product_id t =? p_id p); simpl; rewrite IH; reflexivity.
Qed.

Lemma snapshot_flat_map (ps ps' : list product) (ts : list transaction) :
  map p_id ps' = map p_id ps ->
  map snapshot (flat_map (join_products ps') ts)
  = map snapshot (flat_map (join_products ps) ts).
Proof.
  intros Hid. induction ts as [|t ts IH]; simpl; [reflexivity|].
  rewrite !map_app, IH, !snapshot_join_products, Hid. reflexivity.
Qed.

(** The snapshot columns that [get_transactions] reports depend on the
    products table through the ids in it only. *)
Lemma snapshot_get_transactions (d d' : database) (now : timestamp) (days : Z) :
  transactions d' = transactions d ->
  map p_id (products d') = map p_id (products d) ->
  map snapshot (get_transactions d' now days)
  = map snapshot (get_transactions d now days).
Proof.
  intros Ht Hp. unfold get_transactions.
  set (start_date := now - timedelta days 0 0).
  rewrite !(map_order_by_desc Z.ltb r_transaction_date
              (fun s : Z * Z * Z * real * real * timestamp => snd s) snapshot)
    by reflexivity.
  f_equal.
  pose proof (map_filter_comm snapshot
                (fun s : Z * Z * Z * real * real * timestamp =>
                   start_date <=? snd s)) as Hf.
  simpl in Hf. rewrite !Hf, Ht. f_equal.
  apply snapshot_flat_map. exact Hp.
Qed.

Lemma update_product_frame (d : database) (product_id : Z)
    (name category : option string) (price cost : option real)
    (stock : option Z) :
  let d' := snd (update_product d product_id name category price cost stock) in
  transactions d' = transactions d
  /\ map p_id (products d') = map p_id (products d).
Proof.
  unfold update_product.
  destruct (get_product_by_id d product_id) as [product|]; simpl;
    [|split; reflexivity].
  split; [reflexivity|].
  apply (map_id_update
           (fun q => {| p_id := p_id q;
                        p_name := or_else name (p_name product);
                        p_category := or_else category (p_category product);
                        p_price := or_else price (p_price product);
                        p_cost := or_else cost (p_cost product);
                        p_stock := or_else stock (p_stock product);
                        p_created_at := p_created_at q |})).
  reflexivity.
Qed.

(** Any number of [update_product] calls leave the transactions and the
    ids of the products as they are. *)
Lemma update_products_frame (os : list operation) :
  forall d,
    forallb is_update_product os = true ->
    transactions (perform_all d os) = transactions d
    /\ map p_id (products (perform_all d os)) = map p_id (products d).
Proof.
  induction os as [|o os IH]; intros d Hos; [split; reflexivity|].
  cbn [forallb] in Hos. apply andb_true_iff in Hos. destruct Hos as [Ho Hos].
  destruct o as [| | |pid name category price cost stock| | | | |];
    try discriminate Ho.
  cbn [perform_all fold_left perform].
  destruct (IH (snd (update_product d pid name category price cost stock))
              Hos) as [Ht Hp].
  unfold perform_all in Ht, Hp. rewrite Ht, Hp.
  exact (update_product_frame d pid name category price cost stock).
Qed.

Lemma get_transactions_call_rows (d : database) (now : timestamp) (days : Z)
    (rows : list transaction_row) :
  get_transactions_call d now days = Some rows ->
  rows = get_transactions d now days.
Proof.
  unfold get_transactions_call.
  destruct (_ && _); [intros H; injection H as <-; reflexivity | discriminate].
Qed.

Lemma snapshot_joined_row (t : transaction) (p : product) :
  snapshot (joined_row t p) = stored_snapshot t.
Proof. reflexivity. Qed.

Lemma NoDup_map_injective {A B : Type} (f : A -> B) (l : list A) (a b : A) :
  NoDup (map f l) -> In a l -> In b l -> f a = f b -> a = b.
Proof.
  induction l as [|x l IH]; intros Hn Ha Hb Hf; [destruct Ha|].
  simpl in Hn. inversion Hn as [|? ? Hnot Hn']; subst.
  destruct Ha as [<-|Ha], Hb as [<-|Hb].
  - reflexivity.
  - exfalso. apply Hnot. rewrite Hf. apply in_map. exact Hb.
  - exfalso. apply Hnot. rewrite <- Hf. apply in_map. exact Ha.
  - apply IH; assumption.
Qed.

(** C3.  Calls of [update_product], one or many and whatever fields they
    set, leave the transactions table as it is, and what [get_transactions]
    reports afterwards, for every clock and window for which it returns, are
    the values that the transactions table stores: every reported row
    carries the id, product id, quantity, [total_price], [profit] and date of
    a stored transaction; every stored transaction of the window whose
    product is in the table is reported with its stored values; and, the ids
    being distinct, the row reported under the id of a stored transaction
    carries the [total_price] and the [profit] stored for it.  The rows are
    the same, in the same order, as before the calls, but for the product
    name. *)
Theorem transaction_snapshot_immutable (d : database) (os : list operation) :
  forallb is_update_product os = true ->
  let d' := perform_all d os in
  transactions d' = transactions d
  /\ (forall now days,
        option_map (map snapshot) (get_transactions_call d' now days)
        = option_map (map snapshot) (get_transactions_call d now days))
  /\ (forall now days rows r,
        get_transactions_call d' now days = Some rows ->
        In r rows ->
        exists t, In t (transactions d) /\ snapshot r = stored_snapshot t)
  /\ (forall now days rows t,
        get_transactions_call d' now days = Some rows ->
        In t (transactions d) ->
        get_product_by_id d (t_product_id t) <> None ->
        now - timedelta days 0 0 <= t_transaction_date t ->
        exists r, In r rows /\ snapshot r = stored_snapshot t)
  /\ (NoDup (map t_id (transactions d)) ->
      forall now days rows t r,
        get_transactions_call d' now days = Some rows ->
        In t (transactions d) ->
        In r rows ->
        r_id r = t_id t ->
        r_total_price r = t_total_price t /\ r_profit r = t_profit t).
Proof.
  intros Hos d'.
  destruct (update_products_frame os d Hos) as [Ht Hp]. fold d' in Ht, Hp.
  assert (Hrow : forall now days rows r,
            get_transactions_call d' now days = Some rows ->
            In r rows ->
            exists t, In t (transactions d) /\ snapshot r = stored_snapshot t).
  { intros now days rows r Hc Hr.
    apply get_transactions_call_rows in Hc. subst rows.
    apply in_get_transactions in Hr.
    destruct Hr as (t & p & Hin & _ & _ & _ & ->).
    exists t. rewrite <- Ht. split; [exact Hin | reflexivity]. }
  split; [exact Ht|]. split; [|split; [exact Hrow|split]].
  - intros now days. unfold get_transactions_call.
    destruct (_ && _); [|reflexivity]. simpl. f_equal.
    apply snapshot_get_transactions; assumption.
  - intros now days rows t Hc Hin Hprod Hw.
    apply get_transactions_call_rows in Hc. subst rows.
    destruct (get_product_by_id d (t_product_id t)) as [p|] eqn:E;
      [|contradiction].
    apply get_product_by_id_in in E. destruct E as [Hpin Hpid].
    assert (Hid : In (t_product_id t) (map p_id (products d'))).
    { rewrite Hp, <- Hpid. apply in_map. exact Hpin. }
    apply in_map_iff in Hid. destruct Hid as (p' & Hp'id & Hp'in).
    exists (joined_row t p'). split; [|reflexivity].
    apply in_get_transactions. exists t, p'.
    rewrite Ht. repeat split; auto.
  - intros Hnd now days rows t r Hc Hin Hr Hid.
    destruct (Hrow now days rows r Hc Hr) as (t0 & Hin0 & Hs).
    assert (t0 = t).
    { apply (NoDup_map_injective t_id (transactions d)); auto.
      unfold snapshot, stored_snapshot in Hs. congruence. }
    subst t0. unfold snapshot, stored_snapshot in Hs.
    split; congruence.
Qed.

(** The round trip of the specification: a transaction recorded with
    [total_price = 1000] and [profit = 200] for product 1, whose price and
    cost are edited afterwards, is still reported with 1000 and 200. *)
Lemma transaction_snapshot_immutable_witness :
  let d1 :=
    snd (add_transaction sample_database (5 * us_per_day) 1 2
           (Real.of_Z 1000) (Real.of_Z 200)) in
  let d2 :=
    perform_all d1
      [Update_product 1 None None (Some (Real.of_Z 990000))
         (Some (Real.of_Z 700000)) None] in
  option_map (fun p => (p_price p, p_cost p)) (get_product_by_id d2 1)
  = Some (Real.of_Z 990000, Real.of_Z 700000)
  /\ exists rows,
       get_transactions_call d2 (6 * us_per_day) 1 = Some rows
       /\ rows <> []
       /\ forall r, In r rows ->
            r_id r = 1 ->
            r_total_price r = Real.of_Z 1000 /\ r_profit r = Real.of_Z 200.
Proof.
  intros d1 d2. split; [reflexivity|].
  exists (get_transactions d2 (6 * us_per_day) 1).
  split; [reflexivity|]. split; [discriminate|].
  intros r Hr Hid.
  destruct (transaction_snapshot_immutable d1
              [Update_product 1 None None (Some (Real.of_Z 990000))
                 (Some (Real.of_Z 700000)) None] eq_refl)
    as (_ & _ & _ & _ & H).
  apply (H ltac:(repeat constructor; simpl; tauto) (6 * us_per_day) 1
           (get_transactions d2 (6 * us_per_day) 1)
           {| t_id := 1; t_product_id := 1; t_quantity := 2;
              t_total_price := Real.of_Z 1000; t_profit := Real.of_Z 200;
              t_transaction_date := 5 * us_per_day |} r).
  - reflexivity.
  - left. reflexivity.
  - exact Hr.
  - exact Hid.
Defined.

(** ** The stock prediction *)

Lemma in_get_sales_prediction (d : database) (now : timestamp)
    (r : prediction_row) :
  In r (get_sales_prediction d now) <->
  exists p, In p (products d)
            /\ r = add_prediction_columns
                     (prediction_query_row d (now - timedelta 3 0 0) p).
Proof.
  unfold get_sales_prediction. rewrite in_map_iff. split.
  - intros [r0 [Hr Hin]]. apply in_order_by_desc, in_map_iff in Hin.
    destruct Hin as [p [Hp Hin]]. exists p. subst. auto.
  - intros [p [Hp Hr]]. eexists. split; [symmetry; exact Hr|].
    apply in_order_by_desc, in_map. exact Hp.
Qed.


(** The statement of C5 fails for a negative stock: the product of
    [sample_database_negative] has stock -2 and no transactions, and its row
    carries the status [perlu_restock]. *)
Lemma prediction_without_sales_negative_stock :
  ~ (forall (d : database) (now : timestamp) (p : product),
       In p (products d) ->
       joined_transactions d (now - timedelta 3 0 0) p = [] ->
       exists r, In r (get_sales_prediction d now)
                 /\ product_id r = p_id p
                 /\ avg_daily_sales r = Real.zero
                 /\ predicted_demand r = 0
                 /\ stock_status r = aman).
Proof.
  intros H.
  destruct (H sample_database_negative 0 (with_stock sample_product (-2))
              (or_introl eq_refl) eq_refl) as (r & Hin & _ & _ & _ & Hs).
  apply in_get_sales_prediction in Hin. destruct Hin as [p [[<-|[]] ->]].
  vm_compute in Hs. discriminate Hs.
Qed.

(** C5, amended.  A product without transactions in the trailing three days
    has a row in the prediction with [total_sold_3days = 0],
    [avg_daily_sales = 0] and [predicted_demand = 0]; its status is [aman]
    when its stock is not negative and [perlu_restock] when it is. *)
Theorem prediction_without_sales (d : database) (now : timestamp) (p : product) :
  In p (products d) ->
  joined_transactions d (now - timedelta 3 0 0) p = [] ->
  exists r, In r (get_sales_prediction d now)
            /\ product_id r = p_id p
            /\ product_name r = p_name p
            /\ current_stock r = p_stock p
            /\ total_sold_3days r = 0
            /\ avg_daily_sales r = Real.zero
            /\ predicted_demand r = 0
            /\ (0 <= p_stock p -> stock_status r = aman)
            /\ (p_stock p < 0 -> stock_status r = perlu_restock).
Proof.
  intros Hp Hno.
  exists (add_prediction_columns
            (prediction_query_row d (now - timedelta 3 0 0) p)).
  split; [apply in_get_sales_prediction; exists p; auto|].
  unfold add_prediction_columns, prediction_query_row. rewrite Hno. simpl.
  repeat split.
  - intros Hs. destruct (p_stock p <? 0) eqn:E; [|reflexivity].
    apply Z.ltb_lt in E. lia.
  - intros Hs. apply Z.ltb_lt in Hs. rewrite Hs. reflexivity.
Qed.

Lemma prediction_without_sales_witness :
  exists r, In r (get_sales_prediction sample_database 0)
            /\ product_id r = 1
            /\ avg_daily_sales r = Real.zero
            /\ predicted_demand r = 0
            /\ stock_status r = aman.
Proof.
  destruct (prediction_without_sales sample_database 0 sample_product
              (or_introl eq_refl) eq_refl)
    as (r & H1 & H2 & _ & _ & _ & H6 & H7 & H8 & _).
  exists r. repeat split; try assumption. apply H8. simpl. lia.
Defined.

(** ** Seeding the demo data *)

Lemma randint_bounds (raw a b : Z) :
  a <= b -> a <= randint raw a b <= b.
Proof.
  intros H. unfold randint.
  pose proof (Z.mod_pos_bound raw (b - a + 1) ltac:(lia)). lia.
Qed.

Lemma insert_products_rows (e : environment) data :
  forall d ticks,
    map catalog_entry (products (snd (fst (insert_products e data d ticks))))
    = map catalog_entry (products d) ++ map data_entry data
    /\ map p_stock (products (snd (fst (insert_products e data d ticks))))
       = map p_stock (products d) ++ map data_stock data
    /\ transactions (snd (fst (insert_products e data d ticks)))
       = transactions d.
Proof.
  induction data as [|[[[[name category] price] cost] stock] data IH];
    intros d ticks; simpl.
  - rewrite !app_nil_r. auto.
  - specialize (IH (snd (add_product d (current_timestamp e ticks) name
                           category (Real.of_Z price) (Real.of_Z cost) stock))
                   (S ticks)).
    unfold add_product in *. simpl in *.
    destruct (insert_products e data _ (S ticks)) as [[ids d2] ticks2].
    simpl in *. destruct IH as (IH1 & IH2 & IH3).
    rewrite IH1, IH2, IH3, !map_app, <- !app_assoc. simpl. auto.
Qed.

(** The loops after the first one rewrite no column of a product but its
    stock, and add or remove no product. *)
Lemma seed_days_catalog (e : environment) (day_offsets product_ids : list Z)
    (s : seeding) :
  map catalog_entry (products (s_database (seed_days e day_offsets product_ids s)))
  = map catalog_entry (products (s_database s)).
Proof.
  apply (seed_days_inv
           (fun d => map catalog_entry (products d)
                     = map catalog_entry (products (s_database s))));
    [| |reflexivity].
  - intros d ts product_id quantity total_price profit H. exact H.
  - intros d product_id q H. rewrite <- H. unfold update_stock.
    destruct (option_map p_stock (get_product_by_id d product_id)) as [c|];
      [destruct (c <? q)|]; simpl; try reflexivity.
    unfold set_stock. rewrite map_map. apply map_ext. intros p.
    destruct (p_id p =? product_id); reflexivity.
Qed.

Lemma generate_dummy_data_catalog (e : environment) (d : database) :
  map catalog_entry (products (s_database (generate_dummy_data e d)))
  = map catalog_entry (products d) ++ demo_catalog.
Proof.
  unfold generate_dummy_data.
  pose proof (insert_products_rows e products_data d 0%nat) as (H & _ & _).
  destruct (insert_products e products_data d 0%nat) as [[ids d1] ticks].
  rewrite seed_days_catalog. exact H.
Qed.

(** One pass through the body of the inner loop writes one transaction and
    counts it, or writes none. *)
Lemma seed_transaction_count (e : environment) (day_offset : Z)
    (product_ids : list Z) (s : seeding) :
  let r := seed_transaction e day_offset product_ids s in
  transaction_count (snd r) = transaction_count s + (if fst r then 1 else 0)
  /\ Z.of_nat (List.length (transactions (s_database (snd r))))
     = Z.of_nat (List.length (transactions (s_database s)))
       + (if fst r then 1 else 0).
Proof.
  unfold seed_transaction.
  destruct (get_product_by_id _ _) as [product|]; cbn [fst snd];
    [|cbn; lia].
  destruct (0 <? p_stock product); cbn [fst snd s_database transaction_count];
    [|lia].
  split; [reflexivity|].
  rewrite (proj1 (update_stock_frame _ _ _ 0)).
  unfold add_transaction_with_date, add_transaction. cbn [snd transactions].
  rewrite length_app. cbn [List.length]. lia.
Qed.

Lemma seed_day_count (e : environment) (day_offset : Z)
    (product_ids : list Z) (iterations : nat) :
  forall s,
    transaction_count s < 50 ->
    let s' := seed_day e day_offset product_ids iterations s in
    transaction_count s <= transaction_count s' <= 50
    /\ Z.of_nat (List.length (transactions (s_database s')))
       - Z.of_nat (List.length (transactions (s_database s)))
       = transaction_count s' - transaction_count s.
Proof.
  induction iterations as [|n IH]; intros s Hs; cbn [seed_day]; [cbv zeta; lia|].
  pose proof (seed_transaction_count e day_offset product_ids s) as [Hc Hl].
  destruct (seed_transaction e day_offset product_ids s) as [written s1].
  cbn [fst snd] in Hc, Hl.
  destruct written; cbn [andb].
  - destruct (50 <=? transaction_count s1) eqn:E.
    + cbv zeta. lia.
    + apply Z.leb_gt in E. specialize (IH s1 E). cbv zeta in IH |- *. lia.
  - specialize (IH s1 ltac:(lia)). cbv zeta in IH |- *. lia.
Qed.

Lemma seed_days_count (e : environment) (day_offsets product_ids : list Z) :
  forall s,
    transaction_count s < 50 ->
    let s' := seed_days e day_offsets product_ids s in
    transaction_count s <= transaction_count s' <= 50
    /\ Z.of_nat (List.length (transactions (s_database s')))
       - Z.of_nat (List.length (transactions (s_database s)))
       = transaction_count s' - transaction_count s.
Proof.
  induction day_offsets as [|day_offset rest IH]; intros s Hs;
    cbn [seed_days]; [cbv zeta; lia|].
  match goal with
  | |- context [seed_day e day_offset product_ids ?n ?s0] =>
      pose proof (seed_day_count e day_offset product_ids n s0 Hs) as H1;
      cbv zeta in H1; cbn [s_database transaction_count] in H1;
      destruct (50 <=? transaction_count
                         (seed_day e day_offset product_ids n s0)) eqn:E
  end.
  - cbv zeta. lia.
  - apply Z.leb_gt in E. specialize (IH _ E). cbv zeta in IH |- *. lia.
Qed.

(** The seeding writes as many transactions as it counts, fifty at most. *)
Lemma generate_dummy_data_count (e : environment) (d : database) :
  let s := generate_dummy_data e d in
  0 <= transaction_count s <= 50
  /\ Z.of_nat (List.length (transactions (s_database s)))
     = Z.of_nat (List.length (transactions d)) + transaction_count s.
Proof.
  unfold generate_dummy_data.
  pose proof (insert_products_rows e products_data d 0%nat) as (_ & _ & Ht).
  destruct (insert_products e products_data d 0%nat) as [[ids d1] ticks].
  cbn [fst snd] in Ht.
  match goal with
  | |- context [seed_days e ?offs ids ?s0] =>
      pose proof (seed_days_count e offs ids s0 ltac:(cbn; lia)) as H
  end.
  cbv zeta in H |- *. cbn [s_database transaction_count] in H.
  rewrite Ht in H. lia.
Qed.

(** ** Initialisation *)

Lemma is_database_empty_iff (d : database) :
  is_database_empty d = true <-> products d = [].
Proof.
  unfold is_database_empty. destruct (products d); cbn; split;
    congruence || discriminate || reflexivity.
Qed.

Lemma generate_dummy_data_not_empty (e : environment) (d : database) :
  products (s_database (generate_dummy_data e d)) <> [].
Proof.
  intros H. pose proof (generate_dummy_data_catalog e d) as Hc.
  rewrite H in Hc. apply (f_equal (@List.length _)) in Hc.
  rewrite length_app, !length_map in Hc.
  unfold demo_catalog in Hc. rewrite length_map in Hc.
  cbn [List.length products_data] in Hc. lia.
Qed.

Lemma initialize_database_empty (e : environment) (s : store) :
  products (create_tables s) = [] ->
  initialize_database e s
  = (true, s_database (generate_dummy_data e (create_tables s))).
Proof.
  intros H. unfold initialize_database.
  rewrite (proj2 (is_database_empty_iff _) H). reflexivity.
Qed.

Lemma initialize_database_not_empty (e : environment) (s : store) :
  products (create_tables s) <> [] ->
  initialize_database e s = (false, create_tables s).
Proof.
  intros H. unfold initialize_database.
  destruct (is_database_empty (create_tables s)) eqn:E; [|reflexivity].
  apply is_database_empty_iff in E. contradiction.
Qed.

Lemma initialize_database_products (e : environment) (s : store) :
  products (snd (initialize_database e s)) <> [].
Proof.
  destruct (products (create_tables s)) eqn:E.
  - rewrite (initialize_database_empty e s E). cbn [snd].
    apply generate_dummy_data_not_empty.
  - rewrite initialize_database_not_empty; cbn [snd]; rewrite E; discriminate.
Qed.

(** The statement of C7 fails: [initialize_database] returns [True] a second
    time when the products have been deleted in between.  After the first
    call on a file without tables, ten [delete_product] calls, for the ids 1
    to 10, empty the products table, and the next call seeds it again. *)
Lemma initialize_database_twice :
  ~ (forall (e e' : environment) (s : store) (os : list operation),
       fst (initialize_database e s) = true ->
       fst (initialize_database e'
              (Some (perform_all (snd (initialize_database e s)) os)))
       = false).
Proof.
  intros H.
  specialize (H early_morning_environment early_morning_environment None
                (map Delete_product [1; 2; 3; 4; 5; 6; 7; 8; 9; 10])).
  assert (H1 : fst (initialize_database early_morning_environment None)
               = true) by (vm_compute; reflexivity).
  specialize (H H1). vm_compute in H. discriminate H.
Qed.

(** C7, amended.  [initialize_database] returns [True] exactly when the
    products table is empty once the tables exist, and then holds the seeded
    data; on a table that is not empty it returns [False] and the database
    is unchanged.  The database it leaves has products, so that every call
    that follows it directly, one or many, returns [False] and changes
    nothing; it returns [True] again once the products have been deleted. *)
Theorem initialize_database_spec (e : environment) (s : store) :
  let d := create_tables s in
  let d1 := snd (initialize_database e s) in
  (fst (initialize_database e s) = true <-> products d = [])
  /\ (products d = [] -> d1 = s_database (generate_dummy_data e d))
  /\ (products d <> [] -> initialize_database e s = (false, d))
  /\ (forall e', initialize_database e' (Some d1) = (false, d1))
  /\ (forall es, perform_all d1 (map Initialize_database es) = d1).
Proof.
  intros d d1.
  assert (Hnext : forall e', initialize_database e' (Some d1) = (false, d1)).
  { intros e'. apply (initialize_database_not_empty e' (Some d1)).
    apply initialize_database_products. }
  split; [|split; [|split; [|split]]].
  - split.
    + intros H. destruct (products d) eqn:E; [reflexivity|].
      rewrite initialize_database_not_empty in H; [discriminate|].
      fold d. rewrite E. discriminate.
    + intros H. rewrite initialize_database_empty by exact H. reflexivity.
  - intros H. unfold d1. rewrite initialize_database_empty by exact H.
    reflexivity.
  - apply initialize_database_not_empty.
  - exact Hnext.
  - induction es as [|e' es IH]; [reflexivity|].
    cbn [map perform_all fold_left perform]. rewrite Hnext. exact IH.
Qed.

Lemma initialize_database_spec_witness :
  fst (initialize_database early_morning_environment None) = true
  /\ initialize_database early_morning_environment
       (Some (snd (initialize_database early_morning_environment None)))
     = (false, snd (initialize_database early_morning_environment None))
  /\ initialize_database early_morning_environment (Some sample_database)
     = (false, sample_database).
Proof.
  destruct (initialize_database_spec early_morning_environment None)
    as (H1 & _ & _ & H4 & _).
  destruct (initialize_database_spec early_morning_environment
              (Some sample_database)) as (_ & _ & H3 & _).
  split; [apply H1; reflexivity|]. split; [apply H4|].
  apply H3. discriminate.
Defined.

(** ** The dates of the seeded transactions *)

Section SeedingDates.
Variable e : environment.
Variable P : database -> Prop.
Variable D : Z -> Prop.
Variable product_ids : list Z.
Hypothesis P_seed_transaction :
  forall day_offset s,
    D day_offset -> P (s_database s) ->
    P (s_database (snd (seed_transaction e day_offset product_ids s))).

Lemma seed_day_dates (day_offset : Z) (iterations : nat) :
  D day_offset ->
  forall s, P (s_database s) ->
            P (s_database (seed_day e day_offset product_ids iterations s)).
Proof.
  intros Hd. induction iterations as [|n IH]; intros s Hs; cbn [seed_day];
    [exact Hs|].
  pose proof (P_seed_transaction day_offset s Hd Hs) as H1.
  destruct (seed_transaction e day_offset product_ids s) as [written s1].
  cbn [snd] in H1.
  destruct (written && (50 <=? transaction_count s1)); [exact H1|].
  apply IH. exact H1.
Qed.

Lemma seed_days_dates (day_offsets : list Z) :
  Forall D day_offsets ->
  forall s, P (s_database s) ->
            P (s_database (seed_days e day_offsets product_ids s)).
Proof.
  induction 1 as [|day_offset rest Hd Hrest IH]; intros s Hs;
    cbn [seed_days]; [exact Hs|].
  match goal with
  | |- context [seed_day e day_offset product_ids ?n ?s0] =>
      pose proof (seed_day_dates day_offset n Hd s0 Hs) as H1;
      destruct (50 <=? transaction_count
                         (seed_day e day_offset product_ids n s0))
  end; [exact H1|].
  apply IH. exact H1.
Qed.
End SeedingDates.

(** Every transaction the seeding adds carries a [seeded_date]. *)
Lemma generate_dummy_data_dates (e : environment) (d : database)
    (t : transaction) :
  In t (transactions (s_database (generate_dummy_data e d))) ->
  In t (transactions d) \/ seeded_date e (t_transaction_date t).
Proof.
  unfold generate_dummy_data.
  pose proof (insert_products_rows e products_data d 0%nat) as (_ & _ & Ht).
  destruct (insert_products e products_data d 0%nat) as [[ids d1] ticks].
  cbn [fst snd] in Ht.
  set (P := fun d' : database =>
              forall t', In t' (transactions d') ->
                         In t' (transactions d)
                         \/ seeded_date e (t_transaction_date t')).
  intros Hin. revert t Hin.
  apply (seed_days_dates e P (fun o => 0 <= o <= 7) ids).
  - intros day_offset s Hd Hs t Hin. unfold seed_transaction in Hin.
    destruct (get_product_by_id (s_database s) _) as [product|];
      [|exact (Hs t Hin)].
    destruct (0 <? p_stock product); [|exact (Hs t Hin)].
    cbn [snd s_database] in Hin.
    rewrite (proj1 (update_stock_frame _ _ _ 0)) in Hin.
    unfold add_transaction_with_date in Hin.
    apply add_transaction_row in Hin. destruct Hin as [Hin| ->].
    + exact (Hs t Hin).
    + right. cbn [t_transaction_date].
      exists (s_ticks s), day_offset,
        (randint (random_raw e (S (S (s_draws s)))) 8 20),
        (randint (random_raw e (S (S (S (s_draws s))))) 0 59).
      repeat split; try lia;
        try (apply randint_bounds; lia).
  - repeat constructor; lia.
  - cbn [s_database]. intros t' Hin. left. rewrite <- Ht. exact Hin.
Qed.

(** Against a clock that stands still at [now], a [seeded_date] lies less
    than eight times 24 hours and at least eight hours before [now]; it
    falls on one of the nine calendar days that end with the day of
    [now]. *)
Lemma seeded_date_range (e : environment) (now date : timestamp) :
  (forall k, datetime_now e k = now) ->
  seeded_date e date ->
  now - 8 * us_per_day < date <= now - 8 * us_per_hour
  /\ calendar_day now - 8 <= calendar_day date <= calendar_day now.
Proof.
  intros Hclock (k & o & h & m & Ho & Hh & Hm & ->). rewrite Hclock.
  assert (Hr : now - 8 * us_per_day < now - timedelta o h m
               <= now - 8 * us_per_hour).
  { unfold timedelta, us_per_day, us_per_hour, us_per_minute. lia. }
  split; [exact Hr|]. unfold calendar_day.
  assert (H8 : (now - 8 * us_per_day) / us_per_day = now / us_per_day - 8).
  { replace (now - 8 * us_per_day) with (now + (-8) * us_per_day) by lia.
    rewrite Z.div_add by (unfold us_per_day; lia). lia. }
  split.
  - rewrite <- H8. apply Z.div_le_mono; [unfold us_per_day; lia | lia].
  - apply Z.div_le_mono; [unfold us_per_day; lia|].
    unfold us_per_hour in Hr. lia.
Qed.

Lemma hd_error_In {A : Type} (l : list A) (x : A) :
  hd_error l = Some x -> In x l.
Proof. destruct l; [discriminate|]. intros [= ->]. left. reflexivity. Qed.

(** C8.  The statement fails on the code in its last part.  With the clock
    at 07:00 of day 20 and a random source that always delivers its lowest
    value, [initialize_database] on a file without tables leaves the ten
    products of the demo catalog and 15 transactions, and the first of them
    is dated on day 12, eight calendar days before the day of the call and
    so outside the eight calendar days 13 to 20: the hours and minutes,
    meant as a time of day, are subtracted from the clock. *)
Theorem seeded_date_outside_calendar_days :
  let d := snd (initialize_database early_morning_environment None) in
  let t :=
    {| t_id := 1; t_product_id := 1; t_quantity := 1;
       t_total_price := Real.of_Z 15000000; t_profit := Real.of_Z 2000000;
       t_transaction_date := early_morning - timedelta 7 8 0 |} in
  map catalog_entry (get_products d) = demo_catalog
  /\ List.length (transactions d) = 15%nat
  /\ In t (transactions d)
  /\ calendar_day early_morning = 20
  /\ calendar_day (t_transaction_date t) = 12.
Proof.
  cbv zeta. split; [vm_compute; reflexivity|].
  split; [vm_compute; reflexivity|].
  split; [apply hd_error_In; vm_compute; reflexivity|].
  split; reflexivity.
Qed.

(** ** Rounding the predicted demand *)













(** * Further properties of the module *)

(** ** Adding a product *)

Lemma find_app_last {A : Type} (f : A -> bool) (l : list A) (x : A) :
  (forall y, In y l -> f y = false) ->
  find f (l ++ [x]) = if f x then Some x else None.
Proof.
  intros H. induction l as [|a l IH]; simpl; [reflexivity|].
  rewrite (H a (or_introl eq_refl)). apply IH.
  intros y Hy. apply H. right. exact Hy.
Qed.

Lemma find_app_first {A : Type} (f : A -> bool) (l : list A) (x : A) :
  f x = false -> find f (l ++ [x]) = find f l.
Proof.
  intros H. induction l as [|a l IH]; simpl; [rewrite H; reflexivity|].
  destruct (f a); [reflexivity | exact IH].
Qed.

Lemma next_rowid_above_seq {A : Type} (rowid : A -> Z) (rows : list A)
    (seq : Z) :
  seq < next_rowid rowid rows seq.
Proof. unfold next_rowid. lia. Qed.

(** [add_product] returns an id above every id in the table and above the
    AUTOINCREMENT counter, appends the row as given, and the row is what
    [get_product_by_id] then returns for that id; the other products and the
    transactions are as before. *)
Theorem add_product_spec (d : database) (ts : timestamp)
    (name category : string) (price cost : real) (stock : Z) :
  let product_id := fst (add_product d ts name category price cost stock) in
  let d' := snd (add_product d ts name category price cost stock) in
  let row :=
    {| p_id := product_id; p_name := name; p_category := category;
       p_price := price; p_cost := cost; p_stock := stock;
       p_created_at := ts |} in
  (forall p, In p (products d) -> p_id p < product_id)
  /\ products_seq d < product_id
  /\ get_products d' = get_products d ++ [row]
  /\ get_product_by_id d' product_id = Some row
  /\ (forall other, other <> product_id ->
        get_product_by_id d' other = get_product_by_id d other)
  /\ transactions d' = transactions d.
Proof.
  intros product_id d' row.
  assert (Hfresh : forall p, In p (products d) -> p_id p < product_id).
  { intros p Hp. apply (next_rowid_fresh p_id _ (products_seq d)) in Hp.
    exact Hp. }
  split; [exact Hfresh|].
  assert (Hseq : products_seq d < product_id)
    by apply next_rowid_above_seq.
  split; [exact Hseq|].
  split; [reflexivity|]. split; [|split; [|reflexivity]].
  - unfold get_product_by_id, d', add_product. cbn [snd products].
    fold product_id. fold row. rewrite find_app_last.
    + cbn [p_id row]. rewrite Z.eqb_refl. reflexivity.
    + intros y Hy. apply Z.eqb_neq, Z.lt_neq, Hfresh, Hy.
  - intros other Hne. unfold get_product_by_id, d', add_product.
    cbn [snd products]. apply find_app_first.
    change ((product_id =? other) = false).
    apply Z.eqb_neq. intros E. apply Hne. symmetry. exact E.
Qed.

(** ** Editing a product *)

(** [update_product] on an existing id returns [True]; the row read back has
    every supplied field and, for the fields passed as [None], the values it
    had, and keeps its id and [created_at]; every other product and the
    transactions are untouched.  On an absent id it returns [False] and
    writes nothing. *)
Theorem update_product_spec (d : database) (product_id : Z)
    (name category : option string) (price cost : option real)
    (stock : option Z) :
  let r := update_product d product_id name category price cost stock in
  (forall p, get_product_by_id d product_id = Some p ->
     fst r = true
     /\ get_product_by_id (snd r) product_id
        = Some {| p_id := p_id p;
                  p_name := or_else name (p_name p);
                  p_category := or_else category (p_category p);
                  p_price := or_else price (p_price p);
                  p_cost := or_else cost (p_cost p);
                  p_stock := or_else stock (p_stock p);
                  p_created_at := p_created_at p |}
     /\ (forall other, other <> product_id ->
           get_product_by_id (snd r) other = get_product_by_id d other)
     /\ map p_id (products (snd r)) = map p_id (products d))
  /\ (get_product_by_id d product_id = None -> r = (false, d)).
Proof.
  intros r. unfold r, update_product. split.
  - intros p Hp. rewrite Hp. cbn [fst snd].
    set (upd := fun q : product =>
                  {| p_id := p_id q; p_name := or_else name (p_name p);
                     p_category := or_else category (p_category p);
                     p_price := or_else price (p_price p);
                     p_cost := or_else cost (p_cost p);
                     p_stock := or_else stock (p_stock p);
                     p_created_at := p_created_at q |}).
    split; [reflexivity|]. unfold get_product_by_id in *.
    cbn [products with_products]. split; [|split].
    + rewrite (find_update_same upd) by reflexivity. rewrite Hp. reflexivity.
    + intros other Hne.
      apply (find_update_other upd); [reflexivity | exact Hne].
    + apply (map_id_update upd). reflexivity.
  - intros Hn. rewrite Hn. reflexivity.
Qed.

Lemma update_product_spec_witness :
  fst (update_product sample_database 1 None None (Some (Real.of_Z 990000))
         None None) = true
  /\ option_map (fun p => (p_name p, p_price p, p_cost p, p_stock p))
       (get_product_by_id
          (snd (update_product sample_database 1 None None
                  (Some (Real.of_Z 990000)) None None)) 1)
     = Some ("Mouse Logitech G502"%string, Real.of_Z 990000,
             Real.of_Z 650000, 5)
  /\ update_product sample_database 2 None None (Some (Real.of_Z 990000))
       None None = (false, sample_database).
Proof.
  destruct (update_product_spec sample_database 1 None None
              (Some (Real.of_Z 990000)) None None) as [H _].
  destruct (H sample_product eq_refl) as (H1 & H2 & _).
  destruct (update_product_spec sample_database 2 None None
              (Some (Real.of_Z 990000)) None None) as [_ H'].
  split; [exact H1|]. split; [rewrite H2; reflexivity|].
  apply H'. reflexivity.
Defined.

(** ** Deleting a product leaves the others alone *)

Lemma find_filter_other (product_id other : Z) (ps : list product) :
  other <> product_id ->
  find (fun p => p_id p =? other)
       (filter (fun p => negb (p_id p =? product_id)) ps)
  = find (fun p => p_id p =? other) ps.
Proof.
  intros Hne. induction ps as [|p ps IH]; simpl; [reflexivity|].
  destruct (p_id p =? product_id) eqn:E; simpl.
  - apply Z.eqb_eq in E.
    destruct (p_id p =? other) eqn:E'; [apply Z.eqb_eq in E'; lia | exact IH].
  - destruct (p_id p =? other); [reflexivity | exact IH].
Qed.

(** [delete_product] removes nothing but the product and its transactions:
    every other product is read back as before, a transaction of another
    product is stored afterwards exactly if it was stored before, and the
    AUTOINCREMENT counters keep their values. *)
Theorem delete_product_frame (d : database) (product_id : Z) :
  let d' := snd (delete_product d product_id) in
  (forall other, other <> product_id ->
     get_product_by_id d' other = get_product_by_id d other)
  /\ (forall t, t_product_id t <> product_id ->
        (In t (transactions d') <-> In t (transactions d)))
  /\ products_seq d' = products_seq d
  /\ transactions_seq d' = transactions_seq d.
Proof.
  unfold delete_product.
  destruct (get_product_by_id d product_id) as [p|]; cbn [snd];
    [|repeat split; auto].
  split; [|split; [|split; reflexivity]].
  - intros other Hne. unfold get_product_by_id. cbn [products].
    apply find_filter_other. exact Hne.
  - intros t Ht. cbn [transactions]. rewrite filter_In.
    split; [tauto|]. intros H. split; [exact H|].
    apply negb_true_iff, Z.eqb_neq. exact Ht.
Qed.

Lemma delete_product_frame_witness :
  get_product_by_id (snd (delete_product sample_database_sold 7)) 1
  = get_product_by_id sample_database_sold 1
  /\ In sample_sale (transactions (snd (delete_product sample_database_sold 7))).
Proof.
  destruct (delete_product_frame sample_database_sold 7) as (H1 & H2 & _).
  split; [apply H1; lia|]. apply H2; [simpl; lia|]. left. reflexivity.
Defined.

(** ** Sales keep the stock from going negative *)

Lemma stocks_not_negative_set_stock (d : database) (new_stock product_id : Z) :
  0 <= new_stock ->
  stocks_not_negative d ->
  stocks_not_negative
    (with_products d (set_stock new_stock product_id (products d))).
Proof.
  intros Hn Hd p Hp. cbn [products with_products] in Hp.
  unfold set_stock in Hp. apply in_map_iff in Hp.
  destruct Hp as [q [Hq Hin]]. subst p.
  destruct (p_id q =? product_id); [exact Hn | exact (Hd q Hin)].
Qed.

Lemma update_stock_stocks_ok (d : database) (product_id q : Z) :
  stocks_not_negative d ->
  stocks_not_negative (snd (update_stock d product_id q)).
Proof.
  intros Hd. unfold update_stock.
  destruct (get_product_by_id d product_id) as [p|] eqn:Hp;
    cbn [option_map]; [|exact Hd].
  destruct (p_stock p <? q) eqn:E; cbn [snd]; [exact Hd|].
  apply Z.ltb_ge in E. apply stocks_not_negative_set_stock; [lia|exact Hd].
Qed.

Lemma restock_product_stocks_ok (d : database) (product_id q : Z) :
  0 <= q ->
  stocks_not_negative d ->
  stocks_not_negative (snd (restock_product d product_id q)).
Proof.
  intros Hq Hd. unfold restock_product.
  destruct (get_product_by_id d product_id) as [p|] eqn:Hp;
    cbn [option_map snd]; [|exact Hd].
  apply stocks_not_negative_set_stock; [|exact Hd].
  apply get_product_by_id_in in Hp. specialize (Hd p (proj1 Hp)). lia.
Qed.

(** Whatever quantity it is called with, negative ones included,
    [update_stock] leaves no stock negative if none was; [restock_product]
    does so for a quantity that is not negative. *)
Theorem update_stock_not_negative (d : database) (product_id q : Z) :
  stocks_not_negative d ->
  stocks_not_negative (snd (update_stock d product_id q))
  /\ (0 <= q -> stocks_not_negative (snd (restock_product d product_id q))).
Proof.
  intros Hd. split.
  - apply update_stock_stocks_ok. exact Hd.
  - intros Hq. apply restock_product_stocks_ok; assumption.
Qed.

Lemma update_stock_not_negative_witness :
  stocks_not_negative (snd (update_stock sample_database 1 5))
  /\ stocks_not_negative (snd (update_stock sample_database 1 (-4)))
  /\ stocks_not_negative (snd (restock_product sample_database 1 7)).
Proof.
  assert (H : stocks_not_negative sample_database).
  { intros p [<-|[]]. simpl. lia. }
  split; [exact (proj1 (update_stock_not_negative sample_database 1 5 H))|].
  split; [exact (proj1 (update_stock_not_negative sample_database 1 (-4) H))|].
  apply (proj2 (update_stock_not_negative sample_database 1 7 H)). lia.
Defined.

(** ** A sale entered in the form *)

(** Submitting the sale form for an existing product with a quantity from 1
    to its stock records one transaction, with the quantity and with the
    total and profit computed from the price and cost of that moment, and
    lowers the stock by the quantity.  A quantity above the stock is refused
    and a form that was not submitted, or a quantity below 1, does nothing:
    the database stays as it was. *)
Theorem submit_transaction_spec (d : database) (ts : timestamp)
    (product_id q : Z) (p : product) :
  get_product_by_id d product_id = Some p ->
  (0 < q <= p_stock p ->
   exists d',
     submit_transaction d ts true product_id q = Some (Sale_recorded, d')
     /\ option_map p_stock (get_product_by_id d' product_id)
        = Some (p_stock p - q)
     /\ transactions d'
        = transactions d ++
          [ {| t_id := next_rowid t_id (transactions d) (transactions_seq d);
               t_product_id := product_id; t_quantity := q;
               t_total_price := Real.mul (p_price p) (Real.of_Z q);
               t_profit :=
                 Real.mul (Real.sub (p_price p) (p_cost p)) (Real.of_Z q);
               t_transaction_date := ts |} ])
  /\ (0 < q -> p_stock p < q ->
      submit_transaction d ts true product_id q = Some (Stock_insufficient, d))
  /\ (q <= 0 ->
      submit_transaction d ts true product_id q = Some (Nothing_submitted, d))
  /\ submit_transaction d ts false product_id q = Some (Nothing_submitted, d).
Proof.
  intros Hp. unfold submit_transaction. cbn [andb]. split; [|split; [|split]].
  - intros [Hq1 Hq2].
    rewrite (proj2 (Z.ltb_lt 0 q) Hq1), Hp.
    rewrite (proj2 (Z.ltb_ge (p_stock p) q) Hq2).
    eexists. split; [reflexivity|].
    set (d1 := snd (add_transaction d ts product_id q _ _)).
    assert (Hp1 : get_product_by_id d1 product_id = Some p) by exact Hp.
    destruct (update_stock_existing d1 product_id q p Hp1) as (_ & H2 & _).
    split; [apply H2; exact Hq2|].
    rewrite (proj1 (update_stock_frame d1 product_id q 0)). reflexivity.
  - intros Hq1 Hq2.
    rewrite (proj2 (Z.ltb_lt 0 q) Hq1), Hp.
    rewrite (proj2 (Z.ltb_lt (p_stock p) q) Hq2). reflexivity.
  - intros Hq. rewrite (proj2 (Z.ltb_ge 0 q) Hq). reflexivity.
  - reflexivity.
Qed.

Lemma submit_transaction_spec_witness :
  exists d',
    submit_transaction sample_database 0 true 1 2 = Some (Sale_recorded, d')
    /\ option_map p_stock (get_product_by_id d' 1) = Some 3
    /\ List.length (transactions d') = 1%nat.
Proof.
  destruct (submit_transaction_spec sample_database 0 1 2 sample_product
              eq_refl) as (H & _).
  destruct (H ltac:(simpl; lia)) as (d' & H1 & H2 & H3).
  exists d'. split; [exact H1|]. split; [exact H2|]. rewrite H3. reflexivity.
Defined.

(** A sale through the form leaves no stock negative if none was. *)
Lemma submit_transaction_not_negative (d d' : database) (ts : timestamp)
    (submitted : bool) (product_id q : Z) (o : sale_outcome) :
  stocks_not_negative d ->
  submit_transaction d ts submitted product_id q = Some (o, d') ->
  stocks_not_negative d'.
Proof.
  intros Hd. unfold submit_transaction.
  destruct (submitted && (0 <? q)); [|intros [= _ <-]; exact Hd].
  destruct (get_product_by_id d product_id) as [p|]; [|discriminate].
  destruct (p_stock p <? q); intros [= _ <-]; [exact Hd|].
  apply update_stock_stocks_ok. exact Hd.
Qed.

(** A sale that the form refuses or that it records is never an error; the
    only error is a product that has disappeared. *)
Lemma submit_transaction_error (d : database) (ts : timestamp)
    (submitted : bool) (product_id q : Z) :
  submit_transaction d ts submitted product_id q = None <->
  submitted = true /\ 0 < q /\ get_product_by_id d product_id = None.
Proof.
  unfold submit_transaction. destruct submitted; cbn [andb].
  - destruct (0 <? q) eqn:E.
    + apply Z.ltb_lt in E.
      destruct (get_product_by_id d product_id) as [p|].
      * destruct (p_stock p <? q); split; try discriminate;
          intros (_ & _ & H); discriminate.
      * tauto.
    + apply Z.ltb_ge in E. split; [discriminate|]. intros (_ & H & _). lia.
  - split; [discriminate|]. intros (H & _). discriminate.
Qed.

(** ** Primary keys in the states the module reaches *)

Lemma StronglySorted_app_last (l : list Z) (x : Z) :
  StronglySorted Z.lt l -> (forall y, In y l -> y < x) ->
  StronglySorted Z.lt (l ++ [x]).
Proof.
  induction 1 as [|a l Hs IH Ha]; intros Hx; simpl.
  - repeat constructor.
  - constructor.
    + apply IH. intros y Hy. apply Hx. right. exact Hy.
    + apply Forall_app. split; [exact Ha|].
      constructor; [|constructor]. apply Hx. left. reflexivity.
Qed.

Lemma StronglySorted_map_filter {A : Type} (f : A -> Z) (g : A -> bool)
    (l : list A) :
  StronglySorted Z.lt (map f l) -> StronglySorted Z.lt (map f (filter g l)).
Proof.
  induction l as [|a l IH]; simpl; [auto|].
  intros H. apply StronglySorted_inv in H. destruct H as [Hs Ha].
  destruct (g a); simpl; [|apply IH; exact Hs].
  constructor; [apply IH; exact Hs|].
  rewrite Forall_forall in *. intros y Hy. apply Ha.
  apply in_map_iff in Hy. destruct Hy as [b [<- Hb]].
  apply in_map. apply filter_In in Hb. tauto.
Qed.

Lemma keys_ok_update_where (upd : product -> product) (product_id : Z)
    (d : database) :
  (forall q, p_id (upd q) = p_id q) ->
  keys_ok d ->
  keys_ok (with_products d
             (map (fun q => if p_id q =? product_id then upd q else q)
                  (products d))).
Proof.
  intros Hid (H1 & H2 & H3 & H4). split; [|split; [|split]].
  - unfold ascending_ids. cbn [products with_products].
    rewrite (map_id_update upd Hid). exact H1.
  - intros p Hp. cbn [products with_products] in Hp.
    apply (in_update_where upd) in Hp; [|exact Hid].
    destruct Hp as [q [Hq <-]]. exact (H2 q Hq).
  - exact H3.
  - exact H4.
Qed.

Lemma keys_ok_add_product d ts name category price cost stock :
  keys_ok d -> keys_ok (snd (add_product d ts name category price cost stock)).
Proof.
  intros (H1 & H2 & H3 & H4). unfold add_product. cbn [snd].
  split; [|split; [|split]]; cbn [products transactions products_seq
                                  transactions_seq].
  - unfold ascending_ids. rewrite map_app. cbn [map p_id].
    apply StronglySorted_app_last; [exact H1|].
    intros y Hy. apply in_map_iff in Hy. destruct Hy as [p [<- Hp]].
    apply next_rowid_fresh. exact Hp.
  - intros p Hp. apply in_app_or in Hp. destruct Hp as [Hp|[<-|[]]].
    + apply Z.lt_le_incl, next_rowid_fresh. exact Hp.
    + cbn [p_id]. apply Z.le_refl.
  - exact H3.
  - exact H4.
Qed.

Lemma keys_ok_add_transaction d ts product_id quantity total_price profit :
  keys_ok d ->
  keys_ok (snd (add_transaction d ts product_id quantity total_price profit)).
Proof.
  intros (H1 & H2 & H3 & H4). unfold add_transaction. cbn [snd].
  split; [|split; [|split]]; cbn [products transactions products_seq
                                  transactions_seq].
  - exact H1.
  - exact H2.
  - rewrite map_app. cbn [map t_id].
    apply StronglySorted_app_last; [exact H3|].
    intros y Hy. apply in_map_iff in Hy. destruct Hy as [t [<- Ht]].
    apply next_rowid_fresh. exact Ht.
  - intros t Ht. apply in_app_or in Ht. destruct Ht as [Ht|[<-|[]]].
    + apply Z.lt_le_incl, next_rowid_fresh. exact Ht.
    + cbn [t_id]. apply Z.le_refl.
Qed.

Lemma keys_ok_update_stock d product_id q :
  keys_ok d -> keys_ok (snd (update_stock d product_id q)).
Proof.
  intros H. unfold update_stock.
  destruct (option_map p_stock (get_product_by_id d product_id)) as [s|];
    [destruct (s <? q)|]; cbn [snd]; try exact H.
  apply (keys_ok_update_where (fun p => with_stock p (s - q)));
    [reflexivity | exact H].
Qed.

Lemma keys_ok_restock_product d product_id q :
  keys_ok d -> keys_ok (snd (restock_product d product_id q)).
Proof.
  intros H. unfold restock_product.
  destruct (option_map p_stock (get_product_by_id d product_id)) as [s|];
    cbn [snd]; try exact H.
  apply (keys_ok_update_where (fun p => with_stock p (s + q)));
    [reflexivity | exact H].
Qed.

Lemma keys_ok_update_product d product_id name category price cost stock :
  keys_ok d ->
  keys_ok (snd (update_product d product_id name category price cost stock)).
Proof.
  intros H. unfold update_product.
  destruct (get_product_by_id d product_id) as [product|]; cbn [snd];
    [|exact H].
  apply (keys_ok_update_where
           (fun q => {| p_id := p_id q;
                        p_name := or_else name (p_name product);
                        p_category := or_else category (p_category product);
                        p_price := or_else price (p_price product);
                        p_cost := or_else cost (p_cost product);
                        p_stock := or_else stock (p_stock product);
                        p_created_at := p_created_at q |}));
    [reflexivity | exact H].
Qed.

Lemma keys_ok_delete_product d product_id :
  keys_ok d -> keys_ok (snd (delete_product d product_id)).
Proof.
  intros H. unfold delete_product.
  destruct (get_product_by_id d product_id); cbn [snd]; [|exact H].
  destruct H as (H1 & H2 & H3 & H4).
  split; [|split; [|split]]; cbn [products transactions products_seq
                                  transactions_seq].
  - apply StronglySorted_map_filter. exact H1.
  - intros x Hx. apply filter_In in Hx. exact (H2 x (proj1 Hx)).
  - apply StronglySorted_map_filter. exact H3.
  - intros x Hx. apply filter_In in Hx. exact (H4 x (proj1 Hx)).
Qed.

Lemma keys_ok_perform (d : database) (o : operation) :
  keys_ok d -> keys_ok (perform d o).
Proof.
  intros H. destruct o; cbn [perform].
  - apply keys_ok_add_product; exact H.
  - apply keys_ok_update_stock; exact H.
  - apply keys_ok_restock_product; exact H.
  - apply keys_ok_update_product; exact H.
  - apply keys_ok_delete_product; exact H.
  - apply keys_ok_add_transaction; exact H.
  - apply keys_ok_add_transaction; exact H.
  - apply generate_dummy_data_inv;
      auto using keys_ok_add_product, keys_ok_add_transaction,
        keys_ok_update_stock.
  - apply initialize_database_inv;
      auto using keys_ok_add_product, keys_ok_add_transaction,
        keys_ok_update_stock.
Qed.

Lemma keys_ok_reachable (d : database) : reachable d -> keys_ok d.
Proof.
  intros [os ->].
  assert (H0 : keys_ok (create_tables None)).
  { repeat split; try constructor; intros x []. }
  revert H0. generalize (create_tables None) as d0.
  induction os as [|o os IH]; intros d0 H0; [exact H0|].
  cbn [perform_all fold_left]. apply IH. apply keys_ok_perform. exact H0.
Qed.

Lemma ascending_ids_lookup (ps : list product) (p : product) :
  ascending_ids ps -> In p ps ->
  find (fun q => p_id q =? p_id p) ps = Some p.
Proof.
  unfold ascending_ids. induction ps as [|a ps IH]; simpl; [tauto|].
  intros H Hin. apply StronglySorted_inv in H. destruct H as [Hs Ha].
  destruct Hin as [->|Hin]; [rewrite Z.eqb_refl; reflexivity|].
  destruct (p_id a =? p_id p) eqn:E; [|apply IH; assumption].
  apply Z.eqb_eq in E. rewrite Forall_forall in Ha.
  specialize (Ha (p_id p) (in_map p_id _ _ Hin)). lia.
Qed.

(** In every state that calls of the module produce from a file without
    tables, the products are stored in strictly ascending order of their
    ids, so that [get_products] is ordered by id and no two products share
    an id, no id exceeds the AUTOINCREMENT counter, and [get_product_by_id]
    finds every stored product under its id; the transaction ids are
    strictly ascending likewise. *)
Theorem reachable_keys (d : database) :
  reachable d ->
  StronglySorted Z.lt (map p_id (get_products d))
  /\ NoDup (map p_id (get_products d))
  /\ (forall p, In p (get_products d) ->
        p_id p <= products_seq d
        /\ get_product_by_id d (p_id p) = Some p)
  /\ StronglySorted Z.lt (map t_id (transactions d)).
Proof.
  intros Hr. apply keys_ok_reachable in Hr.
  destruct Hr as (H1 & H2 & H3 & _). unfold get_products.
  split; [exact H1|]. split; [|split; [|exact H3]].
  - apply StronglySorted_Sorted in H1. revert H1.
    generalize (map p_id (products d)) as l. intros l Hl.
    apply Sorted_StronglySorted in Hl; [|intros x y z; apply Z.lt_trans].
    induction Hl as [|a l Hs IH Ha]; constructor; [|exact IH].
    intros Hin. rewrite Forall_forall in Ha. specialize (Ha a Hin). lia.
  - intros p Hp. split; [exact (H2 p Hp)|].
    apply ascending_ids_lookup; assumption.
Qed.

Lemma reachable_keys_witness :
  NoDup (map p_id (get_products
                     (perform_all (create_tables None)
                        [Initialize_database early_morning_environment;
                         Delete_product 3;
                         Add_product 0 "Kabel HDMI" "Aksesoris"
                           (Real.of_Z 50000) (Real.of_Z 30000) 10]))).
Proof.
  apply reachable_keys. eexists. reflexivity.
Defined.

(** ** ORDER BY sorts *)

Section OrderBySorted.
Context {A K : Type} (ltb : K -> K -> bool) (key : A -> K).
Hypothesis ltb_asym : forall a b, ltb a b = true -> ltb b a = false.
Hypothesis ltb_negtrans :
  forall a b c, ltb a b = false -> ltb b c = false -> ltb a c = false.

Let before (x y : A) : Prop := ltb (key x) (key y) = false.

Lemma insert_desc_sorted (x : A) (l : list A) :
  StronglySorted before l -> StronglySorted before (insert_desc ltb key x l).
Proof.
  induction 1 as [|y l Hs IH Hy]; simpl; [repeat constructor|].
  destruct (ltb (key x) (key y)) eqn:E.
  - constructor; [exact IH|].
    rewrite Forall_forall in *. intros z Hz.
    apply in_insert_desc in Hz. destruct Hz as [->|Hz].
    + apply ltb_asym. exact E.
    + apply Hy. exact Hz.
  - constructor; [constructor; assumption|].
    constructor; [exact E|].
    rewrite Forall_forall in *. intros z Hz.
    apply (ltb_negtrans _ (key y)); [exact E | apply Hy; exact Hz].
Qed.

Lemma order_by_desc_sorted (l : list A) :
  StronglySorted before (order_by_desc ltb key l).
Proof.
  induction l as [|x l IH]; simpl; [constructor|].
  apply insert_desc_sorted. exact IH.
Qed.
End OrderBySorted.

Lemma order_by_desc_Z_sorted {A : Type} (key : A -> Z) (l : list A) :
  StronglySorted (fun x y => key y <= key x) (order_by_desc Z.ltb key l).
Proof.
  pose proof (order_by_desc_sorted Z.ltb key) as H.
  assert (Hs : StronglySorted (fun x y => (key x <? key y) = false)
                 (order_by_desc Z.ltb key l)).
  { apply H.
    - intros a b Hab. apply Z.ltb_lt in Hab. apply Z.ltb_ge. lia.
    - intros a b c Hab Hbc. apply Z.ltb_ge in Hab, Hbc. apply Z.ltb_ge. lia. }
  clear H. induction Hs as [|x s Hs IH Hx]; constructor; [exact IH|].
  rewrite Forall_forall in *. intros y Hy. apply Z.ltb_ge. apply Hx. exact Hy.
Qed.


(** ** The rows of [get_transactions] are ordered and lie in the window *)

(** [get_transactions] raises [OverflowError] exactly when the window has
    more than 999999999 days or begins outside the years 1 to 9999.  When it
    returns, its rows come by date, latest first, every row lies in the
    window, and every row is also among the rows of any longer window for
    which the call returns. *)
Theorem get_transactions_order (d : database) (now : timestamp) (days : Z) :
  (get_transactions_call d now days = None
   <-> ~ (Z.abs days <= timedelta_max_days
          /\ 0 <= now - days * us_per_day <= datetime_max))
  /\ forall rows,
       get_transactions_call d now days = Some rows ->
       StronglySorted
         (fun r1 r2 => r_transaction_date r2 <= r_transaction_date r1) rows
       /\ (forall r, In r rows ->
             now - days * us_per_day <= r_transaction_date r)
       /\ (forall days' rows' r, days <= days' ->
             get_transactions_call d now days' = Some rows' ->
             In r rows -> In r rows').
Proof.
  assert (Htd : forall n, timedelta n 0 0 = n * us_per_day).
  { intros n. unfold timedelta. lia. }
  split.
  - unfold get_transactions_call, is_datetime. rewrite Htd.
    destruct (Z.abs days <=? timedelta_max_days) eqn:E1;
      [apply Z.leb_le in E1 | apply Z.leb_gt in E1];
      (destruct (0 <=? now - days * us_per_day) eqn:E2;
        [apply Z.leb_le in E2 | apply Z.leb_gt in E2]);
      (destruct (now - days * us_per_day <=? datetime_max) eqn:E3;
        [apply Z.leb_le in E3 | apply Z.leb_gt in E3]);
      cbn [andb]; split; intros H; try discriminate H; try lia;
        try reflexivity.
  - intros rows Hc. apply get_transactions_call_rows in Hc. subst rows.
    split; [apply order_by_desc_Z_sorted|]. split.
    + intros r Hr. apply in_get_transactions in Hr.
      destruct Hr as (t & p & _ & _ & _ & Hw & ->).
      rewrite Htd in Hw. exact Hw.
    + intros days' rows' r Hle Hc' Hr.
      apply get_transactions_call_rows in Hc'. subst rows'.
      apply in_get_transactions in Hr. apply in_get_transactions.
      destruct Hr as (t & p & H1 & H2 & H3 & Hw & ->).
      exists t, p. repeat split; try assumption.
      rewrite Htd in *. unfold us_per_day in *. lia.
Qed.

Lemma get_transactions_order_witness :
  (exists rows',
     get_transactions_call sample_database_sold (6 * us_per_day) 3 = Some rows'
     /\ In (joined_row sample_sale (with_stock sample_product 3)) rows')
  /\ get_transactions_call sample_database_sold (6 * us_per_day) 3000000 = None.
Proof.
  split.
  - exists (get_transactions sample_database_sold (6 * us_per_day) 3).
    split; [reflexivity|].
    destruct (get_transactions_order sample_database_sold (6 * us_per_day) 1)
      as (_ & H).
    destruct (H (get_transactions sample_database_sold (6 * us_per_day) 1)
                eq_refl) as (_ & _ & H3).
    apply (H3 3 _ _ ltac:(lia) eq_refl). left. reflexivity.
  - destruct (get_transactions_order sample_database_sold (6 * us_per_day)
                3000000) as (H & _).
    apply H. unfold timedelta_max_days, datetime_max, us_per_day. lia.
Defined.

(** ** Daily sales and the summary of today *)


Lemma NoDup_order_by_desc {A K : Type} (ltb : K -> K -> bool)
    (key : A -> K) (l : list A) :
  NoDup l -> NoDup (order_by_desc ltb key l).
Proof.
  induction 1 as [|x l Hx Hn IH]; simpl; [constructor|].
  assert (Hx' : ~ In x (order_by_desc ltb key l))
    by (rewrite in_order_by_desc; exact Hx).
  revert IH Hx'. generalize (order_by_desc ltb key l) as s.
  induction s as [|y s IHs]; simpl; intros Hs Hx'.
  - constructor; [tauto | constructor].
  - destruct (ltb (key x) (key y)).
    + inversion Hs as [|? ? Hy Hs']; subst. constructor.
      * rewrite in_insert_desc. intros [->|H]; [|contradiction].
        apply Hx'. left. reflexivity.
      * apply IHs; [exact Hs'|]. intros H. apply Hx'. right. exact H.
    + constructor; [exact Hx' | exact Hs].
Qed.

Section AggregateFacts.
Variable sum_real : list real -> real.



(** Without a transaction dated today, [get_today_summary] returns 0 for
    the sales, the profit and the items; in every case [total_items] is the
    sum of the quantities of the transactions dated today. *)
Theorem get_today_summary_spec (d : database) (current_timestamp : timestamp) :
  let today t := transaction_day t = calendar_day current_timestamp in
  ((forall t, In t (transactions d) -> ~ today t) ->
   get_today_summary sum_real d current_timestamp
   = {| ts_total_sales := Real.zero; ts_total_profit := Real.zero;
        ts_total_items := 0 |})
  /\ ts_total_items (get_today_summary sum_real d current_timestamp)
     = sum_quantity
         (filter (fun t => transaction_day t =? calendar_day current_timestamp)
                 (transactions d)).
Proof.
  intros today. unfold get_today_summary. cbv zeta. split.
  - intros Hnone.
    replace (filter _ (transactions d)) with (@nil transaction);
      [reflexivity|].
    symmetry. induction (transactions d) as [|t ts IH]; [reflexivity|].
    simpl. destruct (_ =? _) eqn:E.
    + apply Z.eqb_eq in E. exfalso.
      exact (Hnone t (or_introl eq_refl) E).
    + apply IH. intros t' Ht'. apply Hnone. right. exact Ht'.
  - destruct (filter _ (transactions d)); reflexivity.
Qed.
End AggregateFacts.


Lemma get_today_summary_spec_witness :
  get_today_summary sum_left_to_right sample_database_sold (6 * us_per_day)
  = {| ts_total_sales := Real.zero; ts_total_profit := Real.zero;
       ts_total_items := 0 |}.
Proof.
  apply get_today_summary_spec.
  intros t [<-|[]]. vm_compute. discriminate.
Defined.

(** ** The list of categories *)

Lemma string_compare_lt_trans (a b c : string) :
  String.compare a b = Lt -> String.compare b c = Lt ->
  String.compare a c = Lt.
Proof.
  revert b c. induction a as [|x a IH]; intros [|y b] [|z c]; simpl;
    try discriminate; try reflexivity.
  unfold Ascii.compare.
  destruct (N.compare_spec (Ascii.N_of_ascii x) (Ascii.N_of_ascii y))
    as [Hxy|Hxy|Hxy]; try discriminate;
  destruct (N.compare_spec (Ascii.N_of_ascii y) (Ascii.N_of_ascii z))
    as [Hyz|Hyz|Hyz]; try discriminate; intros H1 H2.
  - rewrite Hxy, Hyz, N.compare_refl. exact (IH b c H1 H2).
  - rewrite Hxy. apply N.compare_lt_iff in Hyz. rewrite Hyz. reflexivity.
  - rewrite <- Hyz. apply N.compare_lt_iff in Hxy. rewrite Hxy. reflexivity.
  - assert (H : N.compare (Ascii.N_of_ascii x) (Ascii.N_of_ascii z) = Lt)
      by (apply N.compare_lt_iff; eapply N.lt_trans; eassumption).
    rewrite H. reflexivity.
Qed.

Lemma string_ltb_asym (a b : string) :
  String.ltb b a = true -> String.ltb a b = false.
Proof.
  unfold String.ltb. rewrite (String.compare_antisym a b).
  destruct (String.compare b a); simpl; congruence.
Qed.

Lemma string_ltb_negtrans (a b c : string) :
  String.ltb b a = false -> String.ltb c b = false -> String.ltb c a = false.
Proof.
  unfold String.ltb. intros Hab Hbc.
  destruct (String.compare c a) eqn:Hca; try reflexivity. exfalso.
  destruct (String.compare a b) eqn:E.
  - apply String.compare_eq_iff in E. subst b. rewrite Hca in Hbc.
    discriminate.
  - rewrite (string_compare_lt_trans c a b Hca E) in Hbc. discriminate.
  - rewrite String.compare_antisym, E in Hab. discriminate.
Qed.

(** [get_categories] lists exactly the categories that occur in the
    products table, each once, in strictly ascending byte order. *)
Theorem get_categories_spec (d : database) :
  StronglySorted (fun a b => String.ltb a b = true) (get_categories d)
  /\ forall c, In c (get_categories d) <->
               exists p, In p (products d) /\ p_category p = c.
Proof.
  split.
  - unfold get_categories, order_by_asc.
    pose proof (order_by_desc_sorted (fun a b => String.ltb b a)
                  (fun c : string => c) string_ltb_asym string_ltb_negtrans
                  (nodup string_dec (map p_category (products d)))) as Hs.
    pose proof (NoDup_order_by_desc (fun a b => String.ltb b a)
                  (fun c : string => c) _
                  (NoDup_nodup string_dec (map p_category (products d))))
      as Hn.
    revert Hs Hn. generalize (order_by_desc (fun a b => String.ltb b a)
                                (fun c : string => c)
                                (nodup string_dec
                                   (map p_category (products d)))) as l.
    induction l as [|a l IH]; intros Hs Hn; constructor.
    + apply IH; [inversion Hs | inversion Hn]; assumption.
    + apply StronglySorted_inv in Hs. destruct Hs as [_ Ha].
      inversion Hn as [|? ? Hnot _]; subst.
      rewrite Forall_forall in *. intros b Hb. specialize (Ha b Hb).
      cbv beta in Ha. unfold String.ltb in *.
      destruct (String.compare a b) eqn:E; [|reflexivity|].
      * apply String.compare_eq_iff in E. subst b. contradiction.
      * rewrite String.compare_antisym, E in Ha. discriminate.
  - intros c. unfold get_categories, order_by_asc.
    rewrite in_order_by_desc, nodup_In, in_map_iff.
    split; intros [p H]; exists p; tauto.
Qed.

Example get_categories_demo :
  get_categories
    (snd (initialize_database early_morning_environment None))
  = ["Aksesoris"; "Elektronik"; "Komponen"]%string.
Proof. vm_compute. reflexivity. Qed.

(** ** What the seeding leaves behind *)

(** For every random source and clock, [generate_dummy_data] appends the ten
    products of the catalog, with their names, categories, prices and costs
    and in the order of the catalog, to the products table, and it adds as
    many transactions as it counts, fifty at most. *)
Theorem generate_dummy_data_spec (e : environment) (d : database) :
  let s := generate_dummy_data e d in
  map catalog_entry (get_products (s_database s))
  = map catalog_entry (get_products d) ++ demo_catalog
  /\ List.length (get_products (s_database s))
     = (List.length (get_products d) + 10)%nat
  /\ 0 <= transaction_count s <= 50
  /\ Z.of_nat (List.length (transactions (s_database s)))
     = Z.of_nat (List.length (transactions d)) + transaction_count s.
Proof.
  intros s. pose proof (generate_dummy_data_catalog e d) as Hc.
  pose proof (generate_dummy_data_count e d) as [Hn Hl].
  split; [exact Hc|]. split; [|split; [exact Hn | exact Hl]].
  apply (f_equal (@List.length _)) in Hc.
  rewrite length_app, !length_map in Hc. unfold demo_catalog in Hc.
  rewrite length_map in Hc. exact Hc.
Qed.

(** Against a clock that stands still, every transaction that
    [generate_dummy_data] adds is dated less than eight times 24 hours and at
    least eight hours before the clock, on one of the nine calendar days
    that end with the day of the clock. *)
Theorem generate_dummy_data_date_range (e : environment) (d : database)
    (now : timestamp) (t : transaction) :
  (forall k, datetime_now e k = now) ->
  In t (transactions (s_database (generate_dummy_data e d))) ->
  ~ In t (transactions d) ->
  now - 8 * us_per_day < t_transaction_date t <= now - 8 * us_per_hour
  /\ calendar_day now - 8 <= calendar_day (t_transaction_date t)
     <= calendar_day now.
Proof.
  intros Hclock Hin Hnew. apply generate_dummy_data_dates in Hin.
  destruct Hin as [Hin|Hin]; [contradiction|].
  apply (seeded_date_range e); assumption.
Qed.

Lemma generate_dummy_data_date_range_witness :
  let t :=
    {| t_id := 1; t_product_id := 1; t_quantity := 1;
       t_total_price := Real.of_Z 15000000; t_profit := Real.of_Z 2000000;
       t_transaction_date := early_morning - timedelta 7 8 0 |} in
  calendar_day early_morning - 8 <= calendar_day (t_transaction_date t)
  <= calendar_day early_morning.
Proof.
  intros t.
  apply (generate_dummy_data_date_range early_morning_environment
           empty_database early_morning t).
  - reflexivity.
  - apply hd_error_In. vm_compute. reflexivity.
  - intros [].
Defined.

Lemma sum_quantity_app (l1 l2 : list transaction) :
  sum_quantity (l1 ++ l2) = sum_quantity l1 + sum_quantity l2.
Proof.
  unfold sum_quantity. induction l1 as [|t l1 IH]; simpl; [reflexivity|].
  rewrite IH. lia.
Qed.

Lemma quantity_sold_add_transaction (d : database) (ts : timestamp)
    (product_id quantity : Z) (total_price profit : real) (i : Z) :
  quantity_sold
    (snd (add_transaction d ts product_id quantity total_price profit)) i
  = quantity_sold d i + (if product_id =? i then quantity else 0).
Proof.
  unfold quantity_sold, add_transaction. cbn [snd transactions].
  rewrite filter_app, sum_quantity_app. f_equal. cbn [filter t_product_id].
  destruct (product_id =? i); cbn; lia.
Qed.

(** The stock of a product plus the units its transactions sold. *)
Lemma seed_transaction_accounting (e : environment) (day_offset : Z)
    (product_ids : list Z) (s : seeding) :
  keys_ok (s_database s) ->
  let d' := s_database (snd (seed_transaction e day_offset product_ids s)) in
  map (fun p => (p_id p, p_stock p + quantity_sold d' (p_id p))) (products d')
  = map (fun p => (p_id p,
                   p_stock p + quantity_sold (s_database s) (p_id p)))
        (products (s_database s)).
Proof.
  intros Hk. unfold seed_transaction.
  set (pid := choice (random_raw e (s_draws s)) product_ids).
  destruct (get_product_by_id (s_database s) pid) as [p|] eqn:Hp;
    [|reflexivity].
  destruct (0 <? p_stock p) eqn:Hpos; [|reflexivity].
  apply Z.ltb_lt in Hpos. cbn [snd s_database]. cbv zeta.
  set (q := randint (random_raw e (S (s_draws s))) 1 (Z.min 3 (p_stock p))).
  assert (Hq : 1 <= q <= Z.min 3 (p_stock p))
    by (apply randint_bounds; lia).
  unfold add_transaction_with_date.
  set (d1 := snd (add_transaction (s_database s) _ pid q _ _)).
  assert (Hp1 : get_product_by_id d1 pid = Some p) by exact Hp.
  unfold update_stock. rewrite Hp1. cbn [option_map].
  rewrite (proj2 (Z.ltb_ge (p_stock p) q)) by lia.
  cbn [snd products with_products]. unfold set_stock. rewrite map_map.
  apply map_ext_in. intros r Hr.
  assert (Hsold : forall i,
            quantity_sold
              (with_products d1
                 (map (fun p0 => if p_id p0 =? pid
                                 then with_stock p0 (p_stock p - q) else p0)
                      (products d1))) i
            = quantity_sold (s_database s) i + (if pid =? i then q else 0)).
  { intros i. unfold d1.
    change (quantity_sold (with_products ?a ?b) i) with (quantity_sold a i).
    apply quantity_sold_add_transaction. }
  destruct (p_id r =? pid) eqn:E.
  - apply Z.eqb_eq in E. cbn [p_id p_stock with_stock].
    rewrite Hsold, E, Z.eqb_refl.
    assert (r = p).
    { destruct Hk as (Hasc & _).
      pose proof (ascending_ids_lookup _ r Hasc Hr) as Hfind.
      rewrite E in Hfind. unfold get_product_by_id in Hp.
      rewrite Hp in Hfind. congruence. }
    subst r. f_equal. lia.
  - rewrite Hsold. apply Z.eqb_neq in E.
    destruct (pid =? p_id r) eqn:E'; [apply Z.eqb_eq in E'; congruence|].
    f_equal. lia.
Qed.

Lemma seed_days_accounting (e : environment) (day_offsets product_ids : list Z)
    (s : seeding) :
  keys_ok (s_database s) ->
  let d' := s_database (seed_days e day_offsets product_ids s) in
  keys_ok d'
  /\ map (fun p => (p_id p, p_stock p + quantity_sold d' (p_id p)))
         (products d')
     = map (fun p => (p_id p,
                      p_stock p + quantity_sold (s_database s) (p_id p)))
           (products (s_database s)).
Proof.
  intros Hk.
  set (L := map (fun p => (p_id p,
                           p_stock p + quantity_sold (s_database s) (p_id p)))
                (products (s_database s))).
  apply (seed_days_dates e
           (fun d' => keys_ok d'
                      /\ map (fun p => (p_id p,
                                        p_stock p + quantity_sold d' (p_id p)))
                             (products d') = L)
           (fun _ => True) product_ids).
  - intros day_offset s0 _ [Hk0 H0]. split.
    + apply seed_transaction_inv;
        auto using keys_ok_add_transaction, keys_ok_update_stock.
    + rewrite <- H0. apply seed_transaction_accounting. exact Hk0.
  - apply Forall_forall. intros; exact I.
  - split; [exact Hk | reflexivity].
Qed.

Lemma products_data_stocks : Forall (fun x => 0 <= data_stock x) products_data.
Proof. repeat constructor; cbn; lia. Qed.

(** The seeding keeps the books: after it, the stock of every product plus
    the units that the seeded transactions sold of it is the stock the
    product started with, that of the catalog for the ten new products; and
    no stock is negative if none was. *)
Theorem generate_dummy_data_stock_accounting (e : environment) (d : database) :
  keys_ok d ->
  let d' := s_database (generate_dummy_data e d) in
  map (fun p => p_stock p
                + (quantity_sold d' (p_id p) - quantity_sold d (p_id p)))
      (products d')
  = map p_stock (products d) ++ map data_stock products_data
  /\ (stocks_not_negative d -> stocks_not_negative d').
Proof.
  intros Hk. unfold generate_dummy_data.
  pose proof (insert_products_rows e products_data d 0%nat) as (_ & Hs & Ht).
  pose proof (insert_products_inv keys_ok keys_ok_add_product e products_data
                d 0%nat Hk) as Hk1.
  destruct (insert_products e products_data d 0%nat) as [[ids d1] ticks].
  cbn [fst snd] in Hs, Ht, Hk1.
  match goal with
  | |- context [seed_days e ?offs ids ?s0] =>
      pose proof (seed_days_accounting e offs ids s0 Hk1) as [_ Hacc];
      set (d' := s_database (seed_days e offs ids s0)) in *
  end.
  cbv zeta. cbn [s_database] in Hacc. split.
  - rewrite <- Hs.
    apply (f_equal (map (fun iv : Z * Z => snd iv - quantity_sold d (fst iv))))
      in Hacc.
    rewrite !map_map in Hacc. cbn [fst snd] in Hacc.
    erewrite map_ext; [rewrite Hacc|intros p; cbv beta; lia].
    apply map_ext. intros p. unfold quantity_sold. rewrite Ht. lia.
  - intros Hd.
    apply (seed_days_inv stocks_not_negative).
    + intros d0 ts product_id quantity total_price profit H. exact H.
    + intros d0 product_id q H. apply update_stock_stocks_ok. exact H.
    + cbn [s_database]. intros p Hp.
      pose proof (in_map p_stock _ _ Hp) as Hin. rewrite Hs in Hin.
      apply in_app_or in Hin. destruct Hin as [Hin|Hin].
      * apply in_map_iff in Hin. destruct Hin as [p0 [<- Hp0]].
        exact (Hd p0 Hp0).
      * apply in_map_iff in Hin. destruct Hin as [x [<- Hx]].
        pose proof products_data_stocks as Hf. rewrite Forall_forall in Hf.
        exact (Hf x Hx).
Qed.

Lemma generate_dummy_data_stock_accounting_witness :
  let d' := s_database (generate_dummy_data early_morning_environment
                          empty_database) in
  map (fun p => p_stock p
                + (quantity_sold d' (p_id p)
                   - quantity_sold empty_database (p_id p)))
      (products d')
  = map p_stock (products empty_database) ++ map data_stock products_data
  /\ stocks_not_negative d'.
Proof.
  assert (Hk : keys_ok empty_database).
  { repeat split; try constructor; intros x []. }
  destruct (generate_dummy_data_stock_accounting early_morning_environment
              empty_database Hk) as [H1 H2].
  split; [exact H1|]. apply H2. intros p [].
Defined.

(** ** Changing a stock changes nothing else *)

(** [update_stock] and [restock_product] rewrite the stock of the product
    they are called for and nothing else: the transactions, the ids and the
    other columns of every product, and every other product stay as they
    are. *)
Theorem stock_change_frame (d : database) (product_id q : Z) :
  let frame d' :=
    transactions d' = transactions d
    /\ map (fun p => (p_id p, catalog_entry p, p_created_at p)) (products d')
       = map (fun p => (p_id p, catalog_entry p, p_created_at p)) (products d)
    /\ (forall other, other <> product_id ->
          get_product_by_id d' other = get_product_by_id d other) in
  frame (snd (update_stock d product_id q))
  /\ frame (snd (restock_product d product_id q)).
Proof.
  assert (H : forall new_stock,
            map (fun p => (p_id p, catalog_entry p, p_created_at p))
                (set_stock new_stock product_id (products d))
            = map (fun p => (p_id p, catalog_entry p, p_created_at p))
                  (products d)).
  { intros new_stock. unfold set_stock. rewrite map_map. apply map_ext.
    intros p. destruct (p_id p =? product_id); reflexivity. }
  cbv zeta. unfold update_stock, restock_product.
  destruct (option_map p_stock (get_product_by_id d product_id)) as [s|];
    [|repeat split; reflexivity].
  split.
  - destruct (s <? q); cbn [snd]; [repeat split; reflexivity|].
    split; [reflexivity|]. split; [apply H|].
    intros other Hne. apply get_product_set_stock_other. exact Hne.
  - cbn [snd]. split; [reflexivity|]. split; [apply H|].
    intros other Hne. apply get_product_set_stock_other. exact Hne.
Qed.

(** ** Following the restock recommendation *)



Lemma keys_ok_sample_database_sold : keys_ok sample_database_sold.
Proof.
  split; [|split; [|split]].
  - repeat constructor.
  - intros p [<-|[]]. cbn. lia.
  - repeat constructor.
  - intros t [<-|[]]. cbn. lia.
Qed.


Lemma stock_change_frame_witness :
  get_product_by_id (snd (update_stock sample_database_sold 7 1)) 1
  = get_product_by_id sample_database_sold 1
  /\ get_product_by_id (snd (restock_product sample_database_sold 7 1)) 1
     = get_product_by_id sample_database_sold 1.
Proof.
  destruct (stock_change_frame sample_database_sold 7 1)
    as ((_ & _ & H1) & (_ & _ & H2)).
  split; [apply H1 | apply H2]; lia.
Defined.

Lemma add_product_spec_witness :
  fst (add_product sample_database 0 "Kabel HDMI" "Aksesoris"
         (Real.of_Z 50000) (Real.of_Z 30000) 10) = 2
  /\ get_product_by_id
       (snd (add_product sample_database 0 "Kabel HDMI" "Aksesoris"
               (Real.of_Z 50000) (Real.of_Z 30000) 10)) 1
     = Some sample_product
  /\ 1 < fst (add_product sample_database 0 "Kabel HDMI" "Aksesoris"
                (Real.of_Z 50000) (Real.of_Z 30000) 10).
Proof.
  destruct (add_product_spec sample_database 0 "Kabel HDMI" "Aksesoris"
              (Real.of_Z 50000) (Real.of_Z 30000) 10)
    as (H1 & _ & _ & _ & H5 & _).
  split; [reflexivity|]. split.
  - rewrite H5; [reflexivity|]. discriminate.
  - apply (H1 sample_product). left. reflexivity.
Defined.

Lemma submit_transaction_not_negative_witness :
  stocks_not_negative
    (snd (update_stock
            (snd (add_transaction sample_database 0 1 5
                    (Real.mul (p_price sample_product) (Real.of_Z 5))
                    (Real.mul (Real.sub (p_price sample_product)
                                        (p_cost sample_product))
                              (Real.of_Z 5)))) 1 5)).
Proof.
  apply (submit_transaction_not_negative sample_database _ 0 true 1 5
           Sale_recorded).
  - intros p [<-|[]]. cbn. lia.
  - reflexivity.
Defined.

Lemma submit_transaction_error_witness :
  submit_transaction sample_database 0 true 2 1 = None.
Proof.
  apply submit_transaction_error. split; [reflexivity|].
  split; [lia | reflexivity].
Defined.

(** ** No row is reported twice *)

Lemma Permutation_insert_desc {A K : Type} (ltb : K -> K -> bool)
    (key : A -> K) (x : A) (l : list A) :
  Permutation (insert_desc ltb key x l) (x :: l).
Proof.
  induction l as [|y l IH]; simpl; [reflexivity|].
  destruct (ltb (key x) (key y)); [|reflexivity].
  rewrite IH. apply perm_swap.
Qed.

Lemma Permutation_order_by_desc {A K : Type} (ltb : K -> K -> bool)
    (key : A -> K) (l : list A) :
  Permutation (order_by_desc ltb key l) l.
Proof.
  induction l as [|x l IH]; simpl; [reflexivity|].
  rewrite Permutation_insert_desc. constructor. exact IH.
Qed.

Lemma ascending_ids_filter (ps : list product) (i : Z) :
  ascending_ids ps ->
  filter (fun p => i =? p_id p) ps
  = match find (fun p => p_id p =? i) ps with
    | Some p => [p]
    | None => []
    end.
Proof.
  unfold ascending_ids. induction ps as [|a ps IH]; simpl; [reflexivity|].
  intros H. apply StronglySorted_inv in H. destruct H as [Hs Ha].
  rewrite (Z.eqb_sym i (p_id a)).
  destruct (p_id a =? i) eqn:E; [|apply IH; exact Hs].
  apply Z.eqb_eq in E. f_equal.
  rewrite Forall_forall in Ha.
  clear IH Hs. induction ps as [|b ps IHb]; simpl; [reflexivity|].
  destruct (i =? p_id b) eqn:E'.
  - apply Z.eqb_eq in E'.
    specialize (Ha (p_id b) (or_introl eq_refl)). lia.
  - apply IHb. intros x Hx. apply Ha. right. exact Hx.
Qed.

Lemma joined_rows_ids (ps : list product) (w : transaction_row -> bool)
    (ts : list transaction) :
  ascending_ids ps ->
  StronglySorted Z.lt (map t_id ts) ->
  StronglySorted Z.lt
    (map r_id (filter w (flat_map (join_products ps) ts)))
  /\ forall r, In r (filter w (flat_map (join_products ps) ts)) ->
               exists t, In t ts /\ r_id r = t_id t.
Proof.
  intros Hps. induction ts as [|t ts IH]; simpl; intros Hts.
  - split; [constructor | intros r []].
  - apply StronglySorted_inv in Hts. destruct Hts as [Hs Ht].
    destruct (IH Hs) as [IH1 IH2]. rewrite filter_app, map_app.
    unfold join_products at 1 3. rewrite (ascending_ids_filter ps _ Hps).
    rewrite Forall_forall in Ht.
    destruct (find _ ps) as [p|]; cbn [map filter app].
    + destruct (w (joined_row t p)); cbn [map app].
      * split.
        -- constructor; [exact IH1|]. apply Forall_forall. intros i Hi.
           apply in_map_iff in Hi. destruct Hi as [r [<- Hr]].
           destruct (IH2 r Hr) as [t' [Ht' ->]]. cbn [r_id joined_row].
           apply Ht. apply in_map. exact Ht'.
        -- intros r [<-|Hr]; [exists t; split; [left|]; reflexivity|].
           destruct (IH2 r Hr) as [t' [Ht' E]]. exists t'. auto.
      * split; [exact IH1|]. intros r Hr.
        destruct (IH2 r Hr) as [t' [Ht' E]]. exists t'. auto.
    + split; [exact IH1|]. intros r Hr.
      destruct (IH2 r Hr) as [t' [Ht' E]]. exists t'. auto.
Qed.

Lemma strictly_sorted_NoDup (l : list Z) :
  StronglySorted Z.lt l -> NoDup l.
Proof.
  induction 1 as [|a l Hs IH Ha]; constructor; [|exact IH].
  rewrite Forall_forall in Ha. intros Hin. specialize (Ha a Hin). lia.
Qed.

(** When the keys of both tables are in order, as they are in every
    reachable state, [get_transactions] reports no transaction twice: the
    ids of its rows are pairwise different. *)
Theorem get_transactions_no_duplicates (d : database) (now : timestamp)
    (days : Z) :
  keys_ok d -> NoDup (map r_id (get_transactions d now days)).
Proof.
  intros (Hps & _ & Hts & _). unfold get_transactions.
  eapply Permutation_NoDup.
  - apply Permutation_map. symmetry. apply Permutation_order_by_desc.
  - destruct (joined_rows_ids (products d)
                (fun r => now - timedelta days 0 0 <=? r_transaction_date r)
                (transactions d) Hps Hts) as [Hsorted _].
    apply strictly_sorted_NoDup. exact Hsorted.
Qed.

Lemma get_transactions_no_duplicates_witness :
  NoDup (map r_id (get_transactions sample_database_sold (6 * us_per_day) 7)).
Proof.
  apply get_transactions_no_duplicates. exact keys_ok_sample_database_sold.
Defined.

(** [get_sales_prediction] returns one row for every row of the products
    table, carrying its id, name and current stock. *)
Theorem get_sales_prediction_rows (d : database) (now : timestamp) :
  Permutation
    (map (fun r => (product_id r, product_name r, current_stock r))
         (get_sales_prediction d now))
    (map (fun p => (p_id p, p_name p, p_stock p)) (products d)).
Proof.
  unfold get_sales_prediction. rewrite map_map. cbn [add_prediction_columns
    product_id product_name current_stock].
  rewrite (Permutation_map _ (Permutation_order_by_desc _ _ _)).
  rewrite map_map. reflexivity.
Qed.
